(** * picapture: colour-blob motion detector (src/motion_detector.cpp)

    A shallow embedding of [main], [applyMorphology] and the [colorRanges]
    table, with the properties of the motion-decision engine and of the
    recording controller proved over it.

    Conventions.
    - [int], [time_t] and the integer-valued [double]s of the program are
      [Z]; [size_t] loop indices are [nat].
    - A [cv::Mat] is a list of rows.  [Mat3] holds three-channel pixels,
      [Mat1] single-channel masks (0 or 255 after [inRange]).
    - The OpenCV routines whose result the program only passes along
      ([cvtColor], [getStructuringElement], [erode], [dilate]) are
      parameters of the development; the ones whose result it inspects
      ([inRange], [bitwise_or], [moments], [norm]) are modelled after their
      documented behaviour.
    - The camera, the wall clock and the keyboard are oracles indexed by
      the number of calls made so far; the program state counts the calls. *)

From Stdlib Require Import ZArith QArith Lia Bool List String Reals.
From stdpp Require Import base list.
Import ListNotations.

Local Open Scope Z_scope.

(** ** OpenCV data and primitives *)

Module cv.

(** [cv::Scalar] restricted to the three channels a [CV_8UC3] image uses. *)
Definition Scalar : Type := (Z * Z * Z)%type.

Definition Mat3 : Type := list (list Scalar).
Definition Mat1 : Type := list (list Z).

(** [cv::Point] ([Point2i]). *)
Record Point : Type := mkPoint { px : Z; py : Z }.

(** [cv::Moments]: only the raw moments the program reads. *)
Record Moments : Type := mkMoments { m00 : Z; m10 : Z; m01 : Z }.

Inductive MorphShape : Type := MORPH_RECT | MORPH_CROSS | MORPH_ELLIPSE.

(** [Mat::empty()]: no element at all. *)
Definition empty {A : Type} (m : list (list A)) : bool :=
  match m with
  | [] => true
  | row :: _ => (length row =? 0)%nat
  end.

(** The element at row [y], column [x]. *)
Definition pixelAt {A : Type} (m : list (list A)) (y x : nat) : option A :=
  match m !! y with
  | Some row => row !! x
  | None => None
  end.

(** [operator!=] and [operator-] on points. *)
Definition Point_ne (p q : Point) : bool :=
  negb ((px p =? px q) && (py p =? py q)).

Definition Point_sub (p q : Point) : Point :=
  mkPoint (px p - px q) (py p - py q).

(** [cv::norm(Point)] is [sqrt((double)x*x + (double)y*y)].  The sum is
    an exact integer in [double]; we keep it and compare squares. *)
Definition normSq (p : Point) : Z := px p * px p + py p * py p.

(** [norm(p) > t] for an integer-valued, non-negative [double] [t].
    IEEE [sqrt] is correctly rounded and monotone and [t] is
    representable, so the comparison on [double]s agrees with the
    comparison of the squares. *)
Definition norm_gt (p : Point) (t : Z) : bool := t * t <? normSq p.

(** The real-valued Euclidean length the [double] approximates. *)
Definition norm (p : Point) : R := sqrt (IZR (normSq p)).

(** [cv::inRange] on one pixel: inclusive bounds on every channel. *)
Definition inRangePx (lo hi p : Scalar) : bool :=
  let '(l0, l1, l2) := lo in
  let '(h0, h1, h2) := hi in
  let '(p0, p1, p2) := p in
  (l0 <=? p0) && (p0 <=? h0) &&
  (l1 <=? p1) && (p1 <=? h1) &&
  (l2 <=? p2) && (p2 <=? h2).

Definition inRange (src : Mat3) (lo hi : Scalar) : Mat1 :=
  map (map (fun p => if inRangePx lo hi p then 255 else 0)) src.

(** [cv::bitwise_or] of two masks of the same size. *)
Definition bitwise_or (a b : Mat1) : Mat1 :=
  zip_with (zip_with Z.lor) a b.

(** [cv::moments(m, binaryImage)]: with [binaryImage] every non-zero
    pixel weighs 1, otherwise a pixel weighs its value.  [x] is the
    column, [y] the row. *)
Definition weight (binaryImage : bool) (v : Z) : Z :=
  if binaryImage then (if v =? 0 then 0 else 1) else v.

Fixpoint rowMoments (binaryImage : bool) (x : Z) (row : list Z) : Z * Z :=
  match row with
  | [] => (0, 0)
  | v :: rest =>
      let '(n, sx) := rowMoments binaryImage (x + 1) rest in
      (weight binaryImage v + n, x * weight binaryImage v + sx)
  end.

Fixpoint momentsFrom (binaryImage : bool) (y : Z) (m : Mat1) : Moments :=
  match m with
  | [] => mkMoments 0 0 0
  | row :: rest =>
      let '(n, sx) := rowMoments binaryImage 0 row in
      let M := momentsFrom binaryImage (y + 1) rest in
      mkMoments (n + m00 M) (sx + m10 M) (y * n + m01 M)
  end.

Definition moments (m : Mat1) (binaryImage : bool) : Moments :=
  momentsFrom binaryImage 0 m.

(** [cv::VideoWriter]: whether it is open, and the frames appended to
    the file since it was last opened. *)
Record VideoWriter : Type := mkWriter { isOpened : bool; file : list Mat3 }.

Definition VideoWriter_new : VideoWriter := mkWriter false [].
Definition VideoWriter_open (w : VideoWriter) : VideoWriter := mkWriter true [].
Definition VideoWriter_write (w : VideoWriter) (f : Mat3) : VideoWriter :=
  if isOpened w then mkWriter true (file w ++ [f]) else w.
Definition VideoWriter_release (w : VideoWriter) : VideoWriter :=
  mkWriter false (file w).

End cv.
Import cv.

(** ** The program *)

(** [struct ColorRange] of motion_detector.h: a lower and an upper bound. *)
Record ColorRange : Type := mkRange { lower : Scalar; upper : Scalar }.

Global Instance ColorRange_inhabited : Inhabited ColorRange :=
  populate (mkRange (0, 0, 0) (0, 0, 0)).
Global Instance Point_inhabited : Inhabited Point :=
  populate (mkPoint (-1) (-1)).

Definition colorRanges : list ColorRange :=
  [ mkRange (100, 100, 50) (130, 255, 255)    (* Blue *)
  ; mkRange (0, 100, 50) (10, 255, 255)       (* Red part 1 *)
  ; mkRange (160, 100, 50) (179, 255, 255)    (* Red part 2 *)
  ; mkRange (40, 70, 50) (80, 255, 255)       (* Green *)
  ; mkRange (20, 100, 100) (30, 255, 255)     (* Yellow *)
  ; mkRange (0, 0, 200) (179, 30, 255)        (* White *)
  ].

(** Recording parameters and thresholds of [main]. *)
Definition writeFps : Q := (15 # 1)%Q.
Definition recordDurationS : Z := 30.

(** [int(x)] on a non-negative rational: truncation toward zero. *)
Definition int_of_Q (q : Q) : Z := Z.quot (Qnum q) (Zpos (Qden q)).

Definition maxRecordingFrames : Z :=
  int_of_Q (writeFps * inject_Z recordDurationS + (1 # 2))%Q.

Definition motionThreshold : Z := 30.
Definition quietPeriod : Z := 10.
Definition erodeSize : Z := 2.
Definition dilateSize : Z := 2.

(** The sentinel [Point(-1, -1)]. *)
Definition noPoint : Point := mkPoint (-1) (-1).

(** The locals of [main] together with what the process has done to the
    outside so far. *)
Record State : Type := mkState {
  lastCentroids : list Point;
  lastSnapshot : Z;
  isRecording : bool;
  recordingFrames : Z;
  writer : VideoWriter;
  capOpened : bool;          (* [cap] not yet released *)
  reads : nat;               (* calls of [cap.read] *)
  ticks : nat;               (* calls of [time] *)
  polls : nat;               (* calls of [waitKey] *)
  waits : nat;               (* calls of [cin.get] *)
  cout : list string;
  cerr : list string
}.

Definition set_lastCentroids (l : list Point) (s : State) : State :=
  mkState l (lastSnapshot s) (isRecording s) (recordingFrames s) (writer s)
    (capOpened s) (reads s) (ticks s) (polls s) (waits s) (cout s) (cerr s).
Definition set_lastSnapshot (t : Z) (s : State) : State :=
  mkState (lastCentroids s) t (isRecording s) (recordingFrames s) (writer s)
    (capOpened s) (reads s) (ticks s) (polls s) (waits s) (cout s) (cerr s).
Definition set_isRecording (b : bool) (s : State) : State :=
  mkState (lastCentroids s) (lastSnapshot s) b (recordingFrames s) (writer s)
    (capOpened s) (reads s) (ticks s) (polls s) (waits s) (cout s) (cerr s).
Definition set_recordingFrames (n : Z) (s : State) : State :=
  mkState (lastCentroids s) (lastSnapshot s) (isRecording s) n (writer s)
    (capOpened s) (reads s) (ticks s) (polls s) (waits s) (cout s) (cerr s).
Definition set_writer (w : VideoWriter) (s : State) : State :=
  mkState (lastCentroids s) (lastSnapshot s) (isRecording s)
    (recordingFrames s) w
    (capOpened s) (reads s) (ticks s) (polls s) (waits s) (cout s) (cerr s).
Definition set_capOpened (b : bool) (s : State) : State :=
  mkState (lastCentroids s) (lastSnapshot s) (isRecording s)
    (recordingFrames s) (writer s)
    b (reads s) (ticks s) (polls s) (waits s) (cout s) (cerr s).
Definition count_read (s : State) : State :=
  mkState (lastCentroids s) (lastSnapshot s) (isRecording s)
    (recordingFrames s) (writer s)
    (capOpened s) (S (reads s)) (ticks s) (polls s) (waits s) (cout s) (cerr s).
Definition count_tick (s : State) : State :=
  mkState (lastCentroids s) (lastSnapshot s) (isRecording s)
    (recordingFrames s) (writer s)
    (capOpened s) (reads s) (S (ticks s)) (polls s) (waits s) (cout s) (cerr s).
Definition count_poll (s : State) : State :=
  mkState (lastCentroids s) (lastSnapshot s) (isRecording s)
    (recordingFrames s) (writer s)
    (capOpened s) (reads s) (ticks s) (S (polls s)) (waits s) (cout s) (cerr s).
Definition count_wait (s : State) : State :=
  mkState (lastCentroids s) (lastSnapshot s) (isRecording s)
    (recordingFrames s) (writer s)
    (capOpened s) (reads s) (ticks s) (polls s) (S (waits s)) (cout s) (cerr s).
Definition print (msg : string) (s : State) : State :=
  mkState (lastCentroids s) (lastSnapshot s) (isRecording s)
    (recordingFrames s) (writer s)
    (capOpened s) (reads s) (ticks s) (polls s) (waits s)
    (cout s ++ [msg]) (cerr s).
Definition eprint (msg : string) (s : State) : State :=
  mkState (lastCentroids s) (lastSnapshot s) (isRecording s)
    (recordingFrames s) (writer s)
    (capOpened s) (reads s) (ticks s) (polls s) (waits s)
    (cout s) (cerr s ++ [msg]).

(** How a loop body leaves: falls through to the next iteration, [break]s,
    or [return]s from [main]. *)
Inductive Flow : Type :=
| Next (s : State)
| Break (s : State)
| Return (code : Z) (s : State).

(** What a bounded run of a loop has come to: still looping when the
    bound was reached, left by [break], or the process has exited. *)
Inductive Run : Type :=
| Running (s : State)
| Left (s : State)
| Exited (code : Z) (s : State).

(** The outside world: the n-th frame the camera delivers, the n-th
    reading of the clock, the n-th answer of [waitKey]. *)
Record World : Type := mkWorld {
  camera : nat -> Mat3;
  clock : nat -> Z;
  keyboard : nat -> Z;
  cameraOpens : bool
}.

(** ** Reference instances of the OpenCV parameters

    Used to run the program on concrete frames.  They follow the OpenCV
    documentation: 8-bit BGR to HSV with hue halved into 0..179; an
    elliptic structuring element inscribed in the given rectangle;
    erosion and dilation as minimum and maximum over the element, pixels
    outside the image not constraining the result. *)

Module Ref.

Definition roundDiv (a b : Z) : Z := (2 * a + b) / (2 * b).

Definition bgr2hsvPx (p : Scalar) : Scalar :=
  let '(b, g, r) := p in
  let v := Z.max r (Z.max g b) in
  let d := v - Z.min r (Z.min g b) in
  let s := if v =? 0 then 0 else roundDiv (255 * d) v in
  let h :=
    if d =? 0 then 0
    else if v =? r then roundDiv (30 * (g - b)) d
    else if v =? g then 60 + roundDiv (30 * (b - r)) d
    else 120 + roundDiv (30 * (r - g)) d in
  ((if h <? 0 then h + 180 else h), s, v).

Definition cvtColor_BGR2HSV (m : Mat3) : Mat3 := map (map bgr2hsvPx) m.

Definition zrange (n : Z) : list Z := map Z.of_nat (seq 0 (Z.to_nat n)).

Definition getStructuringElement (shape : MorphShape) (ksize : Z * Z) : Mat1 :=
  let '(w, h) := ksize in
  let r := h / 2 in
  let c := w / 2 in
  map (fun i =>
    map (fun j =>
      match shape with
      | MORPH_RECT => 1
      | MORPH_CROSS => if (i =? r) || (j =? c) then 1 else 0
      | MORPH_ELLIPSE =>
          let dy := i - r in
          let dx :=
            if r =? 0 then 0
            else (Z.sqrt (4 * c * c * (r * r - dy * dy) / (r * r)) + 1) / 2 in
          if (Z.max (c - dx) 0 <=? j) && (j <? Z.min (c + dx + 1) w)
          then 1 else 0
      end) (zrange w)) (zrange h).

Definition at1 (m : Mat1) (x y : Z) : option Z :=
  if (x <? 0) || (y <? 0) then None
  else match m !! Z.to_nat y with
       | Some row => row !! Z.to_nat x
       | None => None
       end.

(** The offsets of the non-zero entries of a kernel from its centre. *)
Definition offsets (kernel : Mat1) : list (Z * Z) :=
  let ay := Z.of_nat (length kernel) / 2 in
  concat
    (imap (fun ky row =>
       let ax := Z.of_nat (length row) / 2 in
       concat
         (imap (fun kx v =>
            if v =? 0 then [] else [(Z.of_nat kx - ax, Z.of_nat ky - ay)])
            row))
       kernel).

Definition morph (op : Z -> Z -> Z) (init : Z) (src kernel : Mat1) : Mat1 :=
  let offs := offsets kernel in
  imap (fun y row =>
    imap (fun x _ =>
      fold_left
        (fun acc o =>
           match at1 src (Z.of_nat x + fst o) (Z.of_nat y + snd o) with
           | Some v => op acc v
           | None => acc
           end)
        offs init)
      row)
    src.

Definition erode : Mat1 -> Mat1 -> Mat1 := morph Z.min 255.
Definition dilate : Mat1 -> Mat1 -> Mat1 := morph Z.max 0.

(** Test frames: a black [w] x [h] picture with filled rectangles, each
    given by its corner, its size and its BGR colour. *)
Definition Patch : Type := (Z * Z * Z * Z * Scalar)%type.

Definition colourAt (patches : list Patch) (x y : Z) : Scalar :=
  fold_right
    (fun (p : Patch) rest =>
       let '(x0, y0, pw, ph, col) := p in
       if (x0 <=? x) && (x <? x0 + pw) && (y0 <=? y) && (y <? y0 + ph)
       then col else rest)
    (0, 0, 0) patches.

Definition picture (w h : Z) (patches : list Patch) : Mat3 :=
  map (fun y => map (fun x => colourAt patches x y) (zrange w)) (zrange h).

Definition blue : Scalar := (255, 0, 0).
Definition red1 : Scalar := (0, 0, 255).      (* hue 0 *)
Definition red2 : Scalar := (85, 0, 255).     (* hue 170 *)
Definition green : Scalar := (0, 255, 0).

(** A 5 x 5 square of colour [col] centred at column [cx] of a
    96 x 7 frame. *)
Definition square (cx : Z) (col : Scalar) : Patch := (cx - 2, 1, 5, 5, col).
Definition frameOf (patches : list Patch) : Mat3 := picture 96 7 patches.

Definition blueAt (cx : Z) : Mat3 := frameOf [square cx blue].

(** A camera that shows a blue square at column 10, then at column 60; a
    clock that advances ten seconds per reading; nobody at the keyboard. *)
Definition world : World :=
  mkWorld (fun n => if (n =? 0)%nat then blueAt 10 else blueAt 60)
          (fun n => 1000 + 10 * Z.of_nat n)
          (fun _ => -1)
          true.

(** The same with the camera unplugged before the first frame. *)
Definition unplugged : World :=
  mkWorld (fun _ => []) (clock world) (keyboard world) true.

(** The state [main] is in, in [world], after the first frame of the first
    cycle: the blue square has been sighted at (10, 3), no motion, and the
    timestamp is the time of that attempt. *)
Definition afterFirstFrame : State :=
  mkState [mkPoint 10 3; noPoint; noPoint; noPoint; noPoint; noPoint]
    1010 false 0 VideoWriter_new true 1 2 1 1
    ["Press Enter to start one detection/recording cycle..."%string] [].

(** Blue and green squares tracked at columns 10 and 20, and a frame in
    which both have gone far to the right. *)
Definition tracking : State :=
  mkState [mkPoint 10 3; noPoint; noPoint; mkPoint 20 3; noPoint; noPoint]
    1010 false 0 VideoWriter_new true 1 2 1 1
    ["Press Enter to start one detection/recording cycle..."%string] [].
Definition bothMoved : Mat3 := frameOf [square 60 blue; square 80 green].

(** Two red squares, one of each sub-range, that swap inwards: the
    centroid of the two together stays at column 50 while the square of
    the second sub-range goes from column 90 to column 55. *)
Definition redsApart : Mat3 := frameOf [square 10 red1; square 90 red2].
Definition redsClose : Mat3 := frameOf [square 45 red1; square 55 red2].

(** A camera that always shows the same picture. *)
Definition still : World :=
  mkWorld (fun _ => blueAt 10) (clock world) (keyboard world) true.

(** An operator who presses Escape at the second frame. *)
Definition impatient : World :=
  mkWorld (camera world) (clock world)
          (fun n => if (n =? 1)%nat then 27 else -1) true.

(** A clock that advances one second per reading, from 1010 on. *)
Definition slow : World :=
  mkWorld (camera world) (fun n => 1010 + Z.of_nat n) (keyboard world) true.

(** A session just opened. *)
Definition sessionOpen : State :=
  mkState [noPoint; noPoint; noPoint; noPoint; noPoint; noPoint]
    1010 true 0 (mkWriter true []) true 0 0 0 0 [] [].

End Ref.

Section Detector.

(** OpenCV routines the program calls and whose results it hands on. *)
Variable cvtColor_BGR2HSV : Mat3 -> Mat3.
Variable getStructuringElement : MorphShape -> Z * Z -> Mat1.
Variable erode : Mat1 -> Mat1 -> Mat1.
Variable dilate : Mat1 -> Mat1 -> Mat1.

Variable world : World.

Definition applyMorphology (src : Mat1) (erodeSize dilateSize : Z) : Mat1 :=
  let dst := src in
  let dst :=
    if 0 <? erodeSize then
      let erodeKernel :=
        getStructuringElement MORPH_ELLIPSE
          (erodeSize * 2 + 1, erodeSize * 2 + 1) in
      erode dst erodeKernel
    else dst in
  let dst :=
    if 0 <? dilateSize then
      let dilateKernel :=
        getStructuringElement MORPH_ELLIPSE
          (dilateSize * 2 + 1, dilateSize * 2 + 1) in
      dilate dst dilateKernel
    else dst in
  dst.

(** [int] is 32 bits wide: the bounds, and a result brought back into
    them the way the target's two's complement arithmetic does. *)
Definition INT_MAX : Z := 2147483647.
Definition INT_MIN : Z := -2147483648.
Definition wrap_int (x : Z) : Z := (x + 2 ^ 31) mod 2 ^ 32 - 2 ^ 31.

(** Lines 36-47: the recording helper, which [main] does not call.  Its
    reference parameters [writer], [isRecording] and [recordingFrames] are
    the fields of the same names of the state it is given; [cout] is the
    state's as well.  [recordingFrames++] is an [int] increment: it wraps
    at [INT_MAX]. *)
Definition handleRecording (frame : Mat3) (maxFrames : Z) (s : State)
  : State :=
  if isRecording s then
    let s := set_writer (VideoWriter_write (writer s) frame) s in
    let s := set_recordingFrames (wrap_int (recordingFrames s + 1)) s in
    if maxFrames <=? recordingFrames s then
      print "Stopped recording."
        (set_recordingFrames 0
          (set_isRecording false
            (set_writer (VideoWriter_release (writer s)) s)))
    else s
  else s.

(** Lines 104-112: the mask of entry [i]; entry 1 takes the union of
    entries 1 and 2. *)
Definition colorMask (hsv : Mat3) (i : nat) : Mat1 :=
  if (i =? 1)%nat then
    let m1 := inRange hsv (lower (colorRanges !!! 1%nat))
                          (upper (colorRanges !!! 1%nat)) in
    let m2 := inRange hsv (lower (colorRanges !!! 2%nat))
                          (upper (colorRanges !!! 2%nat)) in
    bitwise_or m1 m2
  else
    inRange hsv (lower (colorRanges !!! i)) (upper (colorRanges !!! i)).

(** Lines 102-115: the moments of the filtered mask of entry [i]. *)
Definition colorMoments (frame : Mat3) (i : nat) : Moments :=
  let hsv := cvtColor_BGR2HSV frame in
  let mask := colorMask hsv i in
  let proc := applyMorphology mask erodeSize dilateSize in
  moments proc true.

(** Line 117: [Point c(int(M.m10/M.m00), int(M.m01/M.m00))].  The
    moments are integers far below 2^53, so the [double] quotient
    truncates to the integer quotient. *)
Definition centroid (M : Moments) : Point :=
  mkPoint (Z.quot (m10 M) (m00 M)) (Z.quot (m01 M) (m00 M)).

(** Lines 122-128. *)
Definition startRecording (s : State) : State :=
  print "Started recording due to motion."
    (set_recordingFrames 0
      (set_isRecording true
        (set_writer (VideoWriter_open (writer s)) s))).

(** Lines 101-133: the loop over the entries, from index [i], with [n]
    entries left; the boolean is [movementDetected].  [lastCentroids] has
    as many elements as [colorRanges] (line 72), so [lastCentroids[i]] is
    always within bounds in the program. *)
Fixpoint colorLoop (frame : Mat3) (n i : nat) (s : State) : State * bool :=
  match n with
  | O => (s, false)
  | S n' =>
      let M := colorMoments frame i in
      if 0 <? m00 M then
        let c := centroid M in
        if Point_ne (lastCentroids s !!! i) noPoint &&
           norm_gt (Point_sub c (lastCentroids s !!! i)) motionThreshold
        then (startRecording s, true)
        else colorLoop frame n' (S i)
               (set_lastCentroids (<[i := c]> (lastCentroids s)) s)
      else colorLoop frame n' (S i) s
  end.

(** Line 97: the condition of a detection attempt. *)
Definition attemptDue (s : State) (now : Z) : bool :=
  negb (isRecording s) && (quietPeriod <=? now - lastSnapshot s).

(** Lines 97-138. *)
Definition detect (frame : Mat3) (now : Z) (s : State) : State :=
  if attemptDue s now then
    let '(s', movementDetected) :=
      colorLoop frame (length colorRanges) 0 s in
    if negb movementDetected then set_lastSnapshot now s' else s'
  else s.

(** Lines 151-155. *)
Definition pollKey (s : State) : Flow :=
  let key := keyboard world (polls s) in
  let s := count_poll s in
  if key =? 27 then
    let s := set_capOpened false s in
    Return 0
      (if isOpened (writer s)
       then set_writer (VideoWriter_release (writer s)) s else s)
  else Next s.

(** Lines 141-155. *)
Definition record (frame : Mat3) (s : State) : Flow :=
  if isRecording s then
    let s := set_writer (VideoWriter_write (writer s) frame) s in
    let s := set_recordingFrames (recordingFrames s + 1) s in
    if maxRecordingFrames <=? recordingFrames s then
      Break
        (print "Stopped recording after one clip."
          (set_isRecording false
            (set_writer (VideoWriter_release (writer s)) s)))
    else pollKey s
  else pollKey s.

(** Lines 88-155: one iteration of the inner loop. *)
Definition innerBody (s : State) : Flow :=
  let frame := camera world (reads s) in
  let s := count_read s in
  if empty frame then
    Return 1 (eprint "Camera disconnected!" s)
  else
    let now := clock world (ticks s) in
    let s := count_tick s in
    record frame (detect frame now s).

(** Lines 87-156, at most [fuel] iterations. *)
Fixpoint innerLoop (fuel : nat) (s : State) : Run :=
  match fuel with
  | O => Running s
  | S fuel' =>
      match innerBody s with
      | Next s' => innerLoop fuel' s'
      | Break s' => Left s'
      | Return code s' => Exited code s'
      end
  end.

(** Lines 75-84: wait for Enter, then reset the state of the cycle. *)
Definition resetCycle (s : State) : State :=
  let s := print "Press Enter to start one detection/recording cycle..." s in
  let s := count_wait s in
  let s := set_lastCentroids
             (replicate (length (lastCentroids s)) noPoint) s in
  let s := set_lastSnapshot (clock world (ticks s) - quietPeriod)
             (count_tick s) in
  let s := set_isRecording false s in
  let s := set_recordingFrames 0 s in
  set_writer VideoWriter_new s.

(** Lines 74-159: at most [cycles] cycles of at most [fuel] frames. *)
Fixpoint outerLoop (cycles fuel : nat) (s : State) : Run :=
  match cycles with
  | O => Running s
  | S cycles' =>
      match innerLoop fuel (resetCycle s) with
      | Left s' => outerLoop cycles' fuel s'
      | r => r
      end
  end.

(** The state [main] enters its outer loop with (line 72). *)
Definition initial : State :=
  mkState (replicate (length colorRanges) noPoint) 0 false 0
    VideoWriter_new true 0 0 0 0 [] [].

Definition main (cycles fuel : nat) : Run :=
  if negb (cameraOpens world) then
    Exited 1 (eprint "Could not open camera." (set_capOpened false initial))
  else outerLoop cycles fuel initial.

(** *** Reading aids for the loop over the entries

    What entry [i] sees in a frame, whether that is a motion against a
    previous centroid, which entry is the first to see one, and the
    centroids as the loop leaves them. *)

Definition sighting (frame : Mat3) (i : nat) : option Point :=
  let M := colorMoments frame i in
  if 0 <? m00 M then Some (centroid M) else None.

Definition moved (prev : Point) (frame : Mat3) (i : nat) : bool :=
  match sighting frame i with
  | Some c =>
      Point_ne prev noPoint && norm_gt (Point_sub c prev) motionThreshold
  | None => false
  end.

(** Entry [i] has a blob, had one before, and the blob is now farther from
    the stored centroid than the threshold, in Euclidean distance. *)
Definition exceedsThreshold (frame : Mat3) (cents : list Point) (i : nat)
  : Prop :=
  let M := colorMoments frame i in
  0 < m00 M /\ cents !!! i <> noPoint /\
  (IZR motionThreshold < norm (Point_sub (centroid M) (cents !!! i)))%R.

Fixpoint firstMoved (frame : Mat3) (cents : list Point) (n i : nat)
  : option nat :=
  match n with
  | O => None
  | S n' =>
      if moved (cents !!! i) frame i then Some i
      else firstMoved frame cents n' (S i)
  end.

Definition refreshed (frame : Mat3) (cents : list Point) (lo hi : nat)
  : list Point :=
  imap (fun k old =>
          if (lo <=? k)%nat && (k <? hi)%nat
          then default old (sighting frame k) else old)
       cents.

(** The loop as the specification words it: the two red sub-ranges are one
    entry, so entry 2 is not visited on its own. *)
Fixpoint colorLoop_logical (frame : Mat3) (n i : nat) (s : State)
  : State * bool :=
  match n with
  | O => (s, false)
  | S n' =>
      if (i =? 2)%nat then colorLoop_logical frame n' (S i) s
      else
        let M := colorMoments frame i in
        if 0 <? m00 M then
          let c := centroid M in
          if Point_ne (lastCentroids s !!! i) noPoint &&
             norm_gt (Point_sub c (lastCentroids s !!! i)) motionThreshold
          then (startRecording s, true)
          else colorLoop_logical frame n' (S i)
                 (set_lastCentroids (<[i := c]> (lastCentroids s)) s)
        else colorLoop_logical frame n' (S i) s
  end.

Definition flowState (f : Flow) : State :=
  match f with Next s | Break s | Return _ s => s end.

(** What holds between two iterations of the inner loop: either nothing
    is being recorded and the writer is closed, or a session is open, has
    as many frames in the file as the counter says, and is below the cap. *)
Definition cycleInv (s : State) : Prop :=
  (isRecording s = false /\ isOpened (writer s) = false) \/
  (isRecording s = true /\ isOpened (writer s) = true /\
   Z.of_nat (length (file (writer s))) = recordingFrames s /\
   recordingFrames s < maxRecordingFrames).

(** *** Reading aids for the whole run *)

(** The helper called once per frame of a list, in order. *)
Definition feed (frames : list Mat3) (maxFrames : Z) (s : State) : State :=
  fold_left (fun s frame => handleRecording frame maxFrames s) frames s.

Definition runState (r : Run) : State :=
  match r with Running s | Left s | Exited _ s => s end.

(** The test entry [i] applies to a pixel (lines 105-112). *)
Definition entryTest (i : nat) (p : Scalar) : bool :=
  if (i =? 1)%nat then
    inRangePx (lower (colorRanges !!! 1%nat)) (upper (colorRanges !!! 1%nat)) p
    || inRangePx (lower (colorRanges !!! 2%nat))
                 (upper (colorRanges !!! 2%nat)) p
  else inRangePx (lower (colorRanges !!! i)) (upper (colorRanges !!! i)) p.

(** The stored centroids agree with what [frame] shows: each is the
    sentinel or the centroid sighted in [frame]. *)
Definition settled (frame : Mat3) (cents : list Point) : Prop :=
  forall i, cents !!! i = noPoint \/ sighting frame i = Some (cents !!! i).

(** The frames in the file of an open session are the last
    [recordingFrames] frames the camera delivered, in order. *)
Definition clipInv (s : State) : Prop :=
  cycleInv s /\
  (isRecording s = true ->
   (Z.to_nat (recordingFrames s) <= reads s)%nat /\
   file (writer s) =
   map (camera world)
       (seq (reads s - Z.to_nat (recordingFrames s))
            (Z.to_nat (recordingFrames s)))).

(** How many recordings the run has started, by the lines on [cout]. *)
Definition starts (s : State) : nat :=
  count_occ string_dec (cout s) "Started recording due to motion."%string.
(** ** Facts about the primitives *)

Lemma normSq_nonneg (p : Point) : 0 <= normSq p.
Proof. unfold normSq. nia. Qed.

(** The comparison of squares is the comparison of the Euclidean length
    with the threshold. *)
Lemma norm_gt_euclid (p : Point) (t : Z) :
  0 <= t -> norm_gt p t = true <-> (IZR t < norm p)%R.
Proof.
  intros Ht. unfold norm_gt, norm.
  pose proof (normSq_nonneg p) as Hn.
  assert (Hsq : IZR t = sqrt (IZR (t * t))).
  { rewrite mult_IZR, sqrt_square; [reflexivity | now apply IZR_le]. }
  rewrite Z.ltb_lt, Hsq. split.
  - intros H. apply sqrt_lt_1_alt. split.
    + apply IZR_le. nia.
    + now apply IZR_lt.
  - intros H. apply sqrt_lt_0_alt in H. now apply lt_IZR.
Qed.

Lemma weight_binary_nonneg (v : Z) : 0 <= weight true v.
Proof. unfold weight. destruct (v =? 0); lia. Qed.

Lemma rowMoments_nonneg (row : list Z) (x : Z) :
  0 <= x ->
  0 <= fst (rowMoments true x row) /\ 0 <= snd (rowMoments true x row).
Proof.
  revert x. induction row as [|v rest IH]; intros x Hx; simpl; [lia|].
  destruct (IH (x + 1) ltac:(lia)) as [H1 H2].
  destruct (rowMoments true (x + 1) rest) as [n sx]. simpl in *.
  destruct (v =? 0); split; nia.
Qed.

Lemma momentsFrom_nonneg (m : Mat1) (y : Z) :
  0 <= y ->
  let M := momentsFrom true y m in 0 <= m00 M /\ 0 <= m10 M /\ 0 <= m01 M.
Proof.
  revert y. induction m as [|row rest IH]; intros y Hy; simpl; [lia|].
  destruct (rowMoments_nonneg row 0 ltac:(lia)) as [H1 H2].
  destruct (rowMoments true 0 row) as [n sx]. simpl in *.
  destruct (IH (y + 1) ltac:(lia)) as (H3 & H4 & H5).
  repeat split; nia.
Qed.

Lemma moments_binary_nonneg (m : Mat1) :
  0 <= m00 (moments m true) /\ 0 <= m10 (moments m true)
  /\ 0 <= m01 (moments m true).
Proof. apply momentsFrom_nonneg. lia. Qed.

(** OR-ing two [inRange] masks of one image gives the mask of the
    disjunction of the two tests. *)
Lemma bitwise_or_inRange (src : Mat3) (lo1 hi1 lo2 hi2 : Scalar) :
  bitwise_or (inRange src lo1 hi1) (inRange src lo2 hi2) =
  map (map (fun p =>
              if inRangePx lo1 hi1 p || inRangePx lo2 hi2 p then 255 else 0))
      src.
Proof.
  unfold bitwise_or, inRange.
  induction src as [|row rest IH]; simpl; [reflexivity|].
  f_equal; [|exact IH].
  clear IH. induction row as [|p r IHr]; simpl; [reflexivity|].
  f_equal; [|exact IHr].
  destruct (inRangePx lo1 hi1 p), (inRangePx lo2 hi2 p); reflexivity.
Qed.


Lemma pixelAt_map {A B : Type} (f : A -> B) (m : list (list A)) (y x : nat) :
  pixelAt (map (map f) m) y x = f <$> pixelAt m y x.
Proof.
  unfold pixelAt. revert y.
  induction m as [|row rest IH]; intros [|y]; simpl; try reflexivity.
  - apply (list_lookup_fmap f row x).
  - apply IH.
Qed.

(** ** The loop over the colour entries *)

Lemma set_lastCentroids_id (s : State) :
  set_lastCentroids (lastCentroids s) s = s.
Proof. destruct s; reflexivity. Qed.

Lemma set_lastCentroids_twice (l1 l2 : list Point) (s : State) :
  set_lastCentroids l2 (set_lastCentroids l1 s) = set_lastCentroids l2 s.
Proof. reflexivity. Qed.

Lemma lookup_refreshed (frame : Mat3) (cents : list Point) (lo hi k : nat) :
  refreshed frame cents lo hi !! k =
  (fun old => if (lo <=? k)%nat && (k <? hi)%nat
              then default old (sighting frame k) else old) <$> cents !! k.
Proof. unfold refreshed. apply list_lookup_imap. Qed.

Lemma length_refreshed (frame : Mat3) (cents : list Point) (lo hi : nat) :
  length (refreshed frame cents lo hi) = length cents.
Proof. unfold refreshed. apply length_imap. Qed.

Lemma lookup_total_refreshed (frame : Mat3) (cents : list Point) (lo hi k : nat) :
  refreshed frame cents lo hi !!! k =
  if (lo <=? k)%nat && (k <? hi)%nat && (k <? length cents)%nat
  then default (cents !!! k) (sighting frame k) else cents !!! k.
Proof.
  rewrite !list_lookup_total_alt, lookup_refreshed.
  destruct (cents !! k) as [old|] eqn:E; simpl.
  - apply lookup_lt_Some in E. apply Nat.ltb_lt in E. rewrite E.
    now rewrite andb_true_r.
  - apply lookup_ge_None in E.
    destruct (k <? length cents)%nat eqn:E'; [apply Nat.ltb_lt in E'; lia|].
    now rewrite andb_false_r.
Qed.

Lemma refreshed_empty (frame : Mat3) (cents : list Point) (i : nat) :
  refreshed frame cents i i = cents.
Proof.
  apply list_eq. intros k. rewrite lookup_refreshed.
  destruct (cents !! k); simpl; [|reflexivity].
  destruct (i <=? k)%nat eqn:E1, (k <? i)%nat eqn:E2; simpl; try reflexivity.
  apply Nat.leb_le in E1. apply Nat.ltb_lt in E2. lia.
Qed.

Lemma refreshed_one (frame : Mat3) (cents : list Point) (i : nat) :
  refreshed frame cents i (S i) =
  match sighting frame i with
  | Some c => <[i := c]> cents
  | None => cents
  end.
Proof.
  apply list_eq. intros k. rewrite lookup_refreshed.
  destruct (decide (k = i)) as [->|Hne].
  - rewrite Nat.leb_refl, (proj2 (Nat.ltb_lt i (S i)) ltac:(lia)). simpl.
    destruct (sighting frame i) as [c|]; simpl.
    + destruct (cents !! i) eqn:E; simpl.
      * symmetry. apply list_lookup_insert_eq. now apply lookup_lt_Some in E.
      * symmetry. rewrite list_insert_ge; [exact E|now apply lookup_ge_None].
    + now destruct (cents !! i).
  - assert ((i <=? k)%nat && (k <? S i)%nat = false) as ->.
    { destruct (i <=? k)%nat eqn:E1, (k <? S i)%nat eqn:E2; try reflexivity.
      apply Nat.leb_le in E1. apply Nat.ltb_lt in E2. lia. }
    destruct (sighting frame i).
    + rewrite list_lookup_insert_ne by congruence. now destruct (cents !! k).
    + now destruct (cents !! k).
Qed.

Lemma refreshed_grow (frame : Mat3) (cents : list Point) (i hi : nat) :
  (i < hi)%nat ->
  refreshed frame (refreshed frame cents i (S i)) (S i) hi =
  refreshed frame cents i hi.
Proof.
  intros Hlt. apply list_eq. intros k. rewrite !lookup_refreshed.
  destruct (Nat.leb_spec i k), (Nat.ltb_spec k (S i)),
           (Nat.leb_spec (S i) k), (Nat.ltb_spec k hi);
    try lia; destruct (cents !! k) as [old|]; try reflexivity;
    destruct (sighting frame k); reflexivity.
Qed.

Lemma firstMoved_ext (frame : Mat3) (c1 c2 : list Point) (n i : nat) :
  (forall k, (i <= k)%nat -> c1 !!! k = c2 !!! k) ->
  firstMoved frame c1 n i = firstMoved frame c2 n i.
Proof.
  revert i. induction n as [|n IH]; intros i H; simpl; [reflexivity|].
  rewrite (H i) by lia. rewrite (IH (S i)); [reflexivity|].
  intros k Hk. apply H. lia.
Qed.

Lemma firstMoved_Some (frame : Mat3) (cents : list Point) (n i j : nat) :
  firstMoved frame cents n i = Some j <->
  (i <= j < i + n)%nat /\ moved (cents !!! j) frame j = true /\
  forall k, (i <= k < j)%nat -> moved (cents !!! k) frame k = false.
Proof.
  revert i. induction n as [|n IH]; intros i; simpl.
  - split; [discriminate|]. intros [H _]. lia.
  - destruct (moved (cents !!! i) frame i) eqn:E.
    + split.
      * intros [= <-]. repeat split; [lia|lia|exact E|]. intros k Hk. lia.
      * intros (Hr & Hm & Hb). f_equal.
        destruct (decide (i = j)) as [|Hne]; [assumption|].
        rewrite (Hb i) in E by lia. discriminate.
    + rewrite IH. split.
      * intros (Hr & Hm & Hb). repeat split; [lia|lia|exact Hm|].
        intros k Hk. destruct (decide (k = i)) as [->|]; [exact E|].
        apply Hb. lia.
      * intros (Hr & Hm & Hb).
        assert (i <> j) by (intros ->; congruence).
        repeat split; [lia|lia|exact Hm|]. intros k Hk. apply Hb. lia.
Qed.

Lemma firstMoved_None (frame : Mat3) (cents : list Point) (n i : nat) :
  firstMoved frame cents n i = None <->
  forall k, (i <= k < i + n)%nat -> moved (cents !!! k) frame k = false.
Proof.
  revert i. induction n as [|n IH]; intros i; simpl.
  - split; [intros _ k Hk; lia|reflexivity].
  - destruct (moved (cents !!! i) frame i) eqn:E.
    + split; [discriminate|]. intros H. rewrite (H i) in E by lia. discriminate.
    + rewrite IH. split.
      * intros H k Hk. destruct (decide (k = i)) as [->|]; [exact E|].
        apply H. lia.
      * intros H k Hk. apply H. lia.
Qed.

(** One turn of the loop, in terms of [moved] and [refreshed]. *)
Lemma colorLoop_step (frame : Mat3) (n i : nat) (s : State) :
  colorLoop frame (S n) i s =
  if moved (lastCentroids s !!! i) frame i then (startRecording s, true)
  else colorLoop frame n (S i)
         (set_lastCentroids (refreshed frame (lastCentroids s) i (S i)) s).
Proof.
  rewrite refreshed_one. unfold moved, sighting. simpl.
  destruct (0 <? m00 (colorMoments frame i)).
  - destruct (Point_ne _ _ && norm_gt _ _); reflexivity.
  - now rewrite set_lastCentroids_id.
Qed.

(** The loop in closed form: it stops at the first entry that moved,
    having refreshed the entries before it, or refreshes them all. *)
Lemma colorLoop_closed (frame : Mat3) (n i : nat) (s : State) :
  colorLoop frame n i s =
  match firstMoved frame (lastCentroids s) n i with
  | Some j =>
      (startRecording
         (set_lastCentroids (refreshed frame (lastCentroids s) i j) s), true)
  | None =>
      (set_lastCentroids (refreshed frame (lastCentroids s) i (i + n)) s,
       false)
  end.
Proof.
  revert i s. induction n as [|n IH]; intros i s.
  - simpl. now rewrite Nat.add_0_r, refreshed_empty, set_lastCentroids_id.
  - rewrite colorLoop_step. cbn [firstMoved].
    destruct (moved (lastCentroids s !!! i) frame i) eqn:E.
    + now rewrite refreshed_empty, set_lastCentroids_id.
    + rewrite IH. cbn [lastCentroids set_lastCentroids].
      rewrite (firstMoved_ext frame _ (lastCentroids s)).
      2:{ intros k Hk. rewrite lookup_total_refreshed.
          assert ((i <=? k)%nat && (k <? S i)%nat = false) as ->; [|reflexivity].
          destruct (i <=? k)%nat eqn:E1, (k <? S i)%nat eqn:E2; try reflexivity.
          apply Nat.leb_le in E1. apply Nat.ltb_lt in E2. lia. }
      destruct (firstMoved frame (lastCentroids s) n (S i)) as [j|] eqn:F.
      * apply firstMoved_Some in F. destruct F as (Hr & _).
        rewrite set_lastCentroids_twice, refreshed_grow by lia. reflexivity.
      * rewrite set_lastCentroids_twice, refreshed_grow by lia.
        now replace (S i + n)%nat with (i + S n)%nat by lia.
Qed.

Lemma Point_ne_true (p q : Point) : Point_ne p q = true <-> p <> q.
Proof.
  unfold Point_ne. destruct p as [x1 y1], q as [x2 y2]. simpl.
  rewrite negb_true_iff, andb_false_iff, !Z.eqb_neq. split.
  - intros [H|H] [= ? ?]; contradiction.
  - intros H. destruct (Z.eq_dec x1 x2) as [->|]; [|now left].
    right. intros ->. now apply H.
Qed.

Lemma moved_iff (frame : Mat3) (cents : list Point) (i : nat) :
  moved (cents !!! i) frame i = true <-> exceedsThreshold frame cents i.
Proof.
  unfold moved, sighting, exceedsThreshold. cbv zeta.
  destruct (0 <? m00 (colorMoments frame i)) eqn:E.
  - apply Z.ltb_lt in E.
    rewrite andb_true_iff, Point_ne_true, norm_gt_euclid
      by (unfold motionThreshold; lia).
    tauto.
  - apply Z.ltb_ge in E. split; [discriminate|]. intros [H _]. lia.
Qed.

Lemma colorLoop_detects (frame : Mat3) (n i : nat) (s : State) :
  snd (colorLoop frame n i s) = true <->
  exists j, firstMoved frame (lastCentroids s) n i = Some j.
Proof.
  rewrite colorLoop_closed.
  destruct (firstMoved frame (lastCentroids s) n i) as [j|]; simpl.
  - split; eauto.
  - split; [discriminate|]. intros [j H]. discriminate.
Qed.

(** Motion is declared in a frame exactly when some entry exceeds the
    threshold against the centroids stored when the attempt began. *)
Lemma motion_declared_iff (frame : Mat3) (s : State) :
  snd (colorLoop frame (length colorRanges) 0 s) = true <->
  exists i, (i < length colorRanges)%nat /\
            exceedsThreshold frame (lastCentroids s) i.
Proof.
  rewrite colorLoop_detects. split.
  - intros [j H]. apply firstMoved_Some in H. destruct H as (Hr & Hm & _).
    exists j. split; [lia|]. now apply moved_iff.
  - intros (i & Hi & Hm). apply moved_iff in Hm.
    destruct (firstMoved frame (lastCentroids s) (length colorRanges) 0)
      as [j|] eqn:F; [eauto|].
    rewrite firstMoved_None in F. rewrite (F i) in Hm by lia. discriminate.
Qed.

(** The centroids after the loop are the old ones, refreshed on a prefix
    of the entries. *)
Lemma colorLoop_centroids (frame : Mat3) (n i : nat) (s : State) :
  lastCentroids (fst (colorLoop frame n i s)) =
  refreshed frame (lastCentroids s) i
    (default (i + n)%nat (firstMoved frame (lastCentroids s) n i)).
Proof.
  rewrite colorLoop_closed.
  now destruct (firstMoved frame (lastCentroids s) n i).
Qed.

Lemma colorLoop_length (frame : Mat3) (n i : nat) (s : State) :
  length (lastCentroids (fst (colorLoop frame n i s))) =
  length (lastCentroids s).
Proof. rewrite colorLoop_centroids. apply length_refreshed. Qed.

Lemma detect_centroids (frame : Mat3) (now : Z) (s : State) :
  exists hi, lastCentroids (detect frame now s) =
             refreshed frame (lastCentroids s) 0 hi.
Proof.
  unfold detect. destruct (attemptDue s now).
  - pose proof (colorLoop_centroids frame (length colorRanges) 0 s) as H.
    destruct (colorLoop frame (length colorRanges) 0 s) as [s' b].
    exists (default (0 + length colorRanges)%nat
              (firstMoved frame (lastCentroids s) (length colorRanges) 0)).
    now destruct b.
  - exists 0%nat. now rewrite refreshed_empty.
Qed.

Lemma sighting_valid (frame : Mat3) (i : nat) (c : Point) :
  sighting frame i = Some c -> c <> noPoint.
Proof.
  unfold sighting, colorMoments. cbv zeta.
  set (proc := applyMorphology _ _ _).
  destruct (moments_binary_nonneg proc) as (H0 & H1 & _).
  destruct (0 <? m00 (moments proc true)) eqn:E; [|discriminate].
  apply Z.ltb_lt in E. intros [= <-]. unfold centroid, noPoint.
  intros [= Hx _].
  pose proof (Z.quot_pos (m10 (moments proc true)) (m00 (moments proc true))
                H1 E).
  lia.
Qed.

(** C3: for a colour with a valid stored centroid and a valid new one,
    the entry declares motion if and only if the Euclidean distance between
    the two strictly exceeds the motion threshold; at a distance equal to
    the threshold it does not; and an entry that exceeds the threshold makes
    the attempt as a whole declare motion. *)
Theorem threshold_is_strict (frame : Mat3) (s : State) (i : nat) :
  (i < length colorRanges)%nat ->
  0 < m00 (colorMoments frame i) ->
  lastCentroids s !!! i <> noPoint ->
  let d := norm (Point_sub (centroid (colorMoments frame i))
                           (lastCentroids s !!! i)) in
  (snd (colorLoop frame 1 i s) = true <-> (IZR motionThreshold < d)%R) /\
  (d = IZR motionThreshold -> snd (colorLoop frame 1 i s) = false) /\
  ((IZR motionThreshold < d)%R ->
   snd (colorLoop frame (length colorRanges) 0 s) = true).
Proof.
  intros Hi Hm Hp d.
  assert (Hiff : snd (colorLoop frame 1 i s) = true <->
                 (IZR motionThreshold < d)%R).
  { rewrite colorLoop_step.
    destruct (moved (lastCentroids s !!! i) frame i) eqn:E; simpl.
    - apply moved_iff in E. destruct E as (_ & _ & E). tauto.
    - split; [discriminate|]. intros Hd.
      assert (moved (lastCentroids s !!! i) frame i = true) as E'
        by (apply moved_iff; repeat split; assumption).
      congruence. }
  split; [exact Hiff|]. split.
  - intros Heq. apply not_true_is_false. intros E.
    apply Hiff in E. rewrite Heq in E. exact (Rlt_irrefl _ E).
  - intros Hd. apply motion_declared_iff. exists i.
    split; [exact Hi|]. repeat split; assumption.
Qed.

(** Centroids that are all the sentinel make no entry move. *)
Lemma no_motion_without_history (frame : Mat3) (n i : nat) (s : State) :
  (forall k, lastCentroids s !!! k = noPoint) ->
  colorLoop frame n i s =
  (set_lastCentroids (refreshed frame (lastCentroids s) i (i + n)) s, false).
Proof.
  intros H. rewrite colorLoop_closed.
  assert (firstMoved frame (lastCentroids s) n i = None) as ->;
    [|reflexivity].
  apply firstMoved_None. intros k _. rewrite H. unfold moved.
  now destruct (sighting frame k).
Qed.

Lemma resetCycle_centroids (s : State) (k : nat) :
  lastCentroids (resetCycle s) !!! k = noPoint.
Proof.
  unfold resetCycle. cbn.
  rewrite list_lookup_total_alt.
  destruct (replicate (length (lastCentroids s)) noPoint !! k) eqn:E;
    [|reflexivity].
  apply lookup_replicate in E. simpl. tauto.
Qed.

Lemma pollKey_recording (s : State) :
  isRecording (flowState (pollKey s)) = isRecording s /\
  file (writer (flowState (pollKey s))) = file (writer s).
Proof.
  unfold pollKey. destruct (keyboard world (polls s) =? 27); cbn.
  - destruct (isOpened (writer s)); split; reflexivity.
  - split; reflexivity.
Qed.

(** C6: on the first detection attempt of a freshly reset cycle no frame
    whatever triggers recording: every tracked centroid is the sentinel
    after the reset, so the loop over the entries declares no motion, the
    attempt leaves the recorder off and the writer unopened, and the first
    iteration of the cycle ends with nothing recorded. *)
Theorem first_attempt_immunity (s : State) (frame : Mat3) (now : Z) :
  let s0 := resetCycle s in
  (forall k, lastCentroids s0 !!! k = noPoint) /\
  snd (colorLoop frame (length colorRanges) 0 s0) = false /\
  isRecording (detect frame now s0) = false /\
  writer (detect frame now s0) = VideoWriter_new /\
  isRecording (flowState (innerBody s0)) = false /\
  file (writer (flowState (innerBody s0))) = [].
Proof.
  intros s0.
  assert (H : forall k, lastCentroids s0 !!! k = noPoint)
    by (intros k; apply resetCycle_centroids).
  split; [exact H|].
  pose proof (no_motion_without_history frame (length colorRanges) 0 s0 H)
    as Hl.
  split; [now rewrite Hl|].
  split; [unfold detect; rewrite Hl; now destruct (attemptDue s0 now)|].
  split; [unfold detect; rewrite Hl; now destruct (attemptDue s0 now)|].
  unfold innerBody.
  destruct (empty (camera world (reads s0))); [split; reflexivity|].
  set (s1 := count_tick (count_read s0)).
  set (f := camera world (reads s0)).
  set (t := clock world (ticks (count_read s0))).
  assert (Hd : isRecording (detect f t s1) = false /\
               writer (detect f t s1) = VideoWriter_new).
  { unfold detect.
    rewrite (no_motion_without_history f (length colorRanges) 0 s1 H).
    now destruct (attemptDue s1 t). }
  destruct Hd as [Hr Hw]. unfold record. rewrite Hr.
  destruct (pollKey_recording (detect f t s1)) as [-> ->].
  now rewrite Hr, Hw.
Qed.

(** C7: an entry whose filtered mask is empty (zeroth moment zero) keeps
    its stored centroid through the detection attempt; and no entry that
    held a valid centroid holds the sentinel afterwards. *)
Theorem empty_mask_keeps_centroid
  (frame : Mat3) (now : Z) (s : State) (i : nat) :
  m00 (colorMoments frame i) = 0 ->
  lastCentroids (detect frame now s) !! i = lastCentroids s !! i /\
  (forall j, lastCentroids s !!! j <> noPoint ->
             lastCentroids (detect frame now s) !!! j <> noPoint).
Proof.
  intros Hm. destruct (detect_centroids frame now s) as [hi ->]. split.
  - rewrite lookup_refreshed. unfold sighting. rewrite Hm. simpl.
    destruct (lastCentroids s !! i); simpl; [|reflexivity].
    now destruct (i <? hi)%nat.
  - intros j Hj. rewrite lookup_total_refreshed.
    destruct (_ && _); [|exact Hj].
    destruct (sighting frame j) as [c|] eqn:E; simpl; [|exact Hj].
    now apply sighting_valid in E.
Qed.

(** Entry 2 of the list, the second red sub-range, is an entry like the
    others to the loop: a first attempt that sights it stores its
    centroid, computed from its own mask, as the tracked centroid of
    entry 2. *)
Lemma entry2_tracked_on_its_own (frame : Mat3) (s : State) (c : Point) :
  (forall k, lastCentroids s !!! k = noPoint) ->
  length (lastCentroids s) = length colorRanges ->
  sighting frame 2 = Some c ->
  lastCentroids (fst (colorLoop frame (length colorRanges) 0 s)) !! 2%nat
  = Some c.
Proof.
  intros Hall Hlen Hs. rewrite no_motion_without_history by exact Hall.
  cbn [fst lastCentroids set_lastCentroids]. rewrite lookup_refreshed, Hs.
  destruct (lastCentroids s !! 2%nat) as [old|] eqn:E; [reflexivity|].
  apply lookup_ge_None in E. rewrite Hlen in E. simpl in E. lia.
Qed.

(** C5: when two entries both exceed the threshold in one frame, the
    attempt declares motion once, for the first entry in the order of the
    list that exceeds it, and starts one session: recording is on, the
    frame counter is zero, the writer is open on an empty file and the
    start is announced once; the loop stops there, so the entries from that
    one on, the second of the two among them, keep their stored centroids,
    and only the entries before it are refreshed. *)
Theorem priority_short_circuit (frame : Mat3) (s : State) (i j : nat) :
  (i < j)%nat -> (j < length colorRanges)%nat ->
  exceedsThreshold frame (lastCentroids s) i ->
  exceedsThreshold frame (lastCentroids s) j ->
  let r := colorLoop frame (length colorRanges) 0 s in
  snd r = true /\
  isRecording (fst r) = true /\ recordingFrames (fst r) = 0 /\
  isOpened (writer (fst r)) = true /\ file (writer (fst r)) = [] /\
  lastCentroids (fst r) !! j = lastCentroids s !! j /\
  cout (fst r) = cout s ++ ["Started recording due to motion."%string] /\
  exists t,
    (t <= i)%nat /\
    exceedsThreshold frame (lastCentroids s) t /\
    (forall k, (k < t)%nat -> ~ exceedsThreshold frame (lastCentroids s) k) /\
    fst r = startRecording
              (set_lastCentroids (refreshed frame (lastCentroids s) 0 t) s) /\
    (forall k, (t <= k)%nat ->
               lastCentroids (fst r) !! k = lastCentroids s !! k).
Proof.
  intros Hij Hj Hi Hjm r.
  assert (Hd : snd r = true).
  { apply motion_declared_iff. exists i. split; [lia|exact Hi]. }
  pose proof Hd as Hd'. apply colorLoop_detects in Hd'.
  destruct Hd' as [t Ht]. subst r.
  rewrite colorLoop_closed, Ht in *. cbn [fst snd].
  apply firstMoved_Some in Ht. destruct Ht as (Hr & Hm & Hb).
  assert (Hti : (t <= i)%nat).
  { destruct (le_lt_dec t i) as [|Hlt]; [assumption|].
    apply moved_iff in Hi. rewrite (Hb i) in Hi by lia. discriminate. }
  assert (Hkeep : forall k, (t <= k)%nat ->
            refreshed frame (lastCentroids s) 0 t !! k = lastCentroids s !! k).
  { intros k Hk. rewrite lookup_refreshed.
    destruct (Nat.ltb_spec k t); [lia|]. rewrite andb_false_r.
    now destruct (lastCentroids s !! k). }
  split; [reflexivity|].
  split; [reflexivity|]. split; [reflexivity|].
  split; [reflexivity|]. split; [reflexivity|].
  split; [apply Hkeep; lia|]. split; [reflexivity|].
  exists t. split; [exact Hti|]. split; [now apply moved_iff|].
  split; [|split; [reflexivity|exact Hkeep]].
  intros k Hk Hc. apply moved_iff in Hc. rewrite (Hb k) in Hc by lia.
  discriminate.
Qed.

(** C9: the mask of the red entry is the pixelwise OR of the masks of the
    two red sub-ranges: a pixel is 255 when it lies in either sub-range
    (once, also when in both) and 0 when in neither, whatever other range
    it lies in. *)
Theorem red_mask_is_union (hsv : Mat3) :
  let part1 := inRangePx (lower (colorRanges !!! 1%nat))
                         (upper (colorRanges !!! 1%nat)) in
  let part2 := inRangePx (lower (colorRanges !!! 2%nat))
                         (upper (colorRanges !!! 2%nat)) in
  colorMask hsv 1 =
  map (map (fun p => if part1 p || part2 p then 255 else 0)) hsv /\
  forall y x,
    pixelAt (colorMask hsv 1) y x =
    (fun p => if part1 p || part2 p then 255 else 0) <$> pixelAt hsv y x.
Proof.
  intros part1 part2.
  assert (H : colorMask hsv 1 =
              map (map (fun p => if part1 p || part2 p then 255 else 0)) hsv).
  { unfold colorMask. cbn [Nat.eqb]. apply bitwise_or_inRange. }
  split; [exact H|]. intros y x. rewrite H. apply pixelAt_map.
Qed.

(** ** The inner loop *)

Lemma maxRecordingFrames_eq : maxRecordingFrames = 450.
Proof. reflexivity. Qed.

(** [maxRecordingFrames] is the integer nearest to fps x duration. *)
Lemma maxRecordingFrames_rounds :
  (Qabs.Qabs (inject_Z maxRecordingFrames
              - writeFps * inject_Z recordDurationS) <= 1 # 2)%Q.
Proof. vm_compute. discriminate. Qed.

Lemma innerLoop_app (k m : nat) (s : State) :
  innerLoop (k + m) s =
  match innerLoop k s with
  | Running s' => innerLoop m s'
  | r => r
  end.
Proof.
  revert s. induction k as [|k IH]; intros s; simpl; [reflexivity|].
  destruct (innerBody s); [apply IH|reflexivity|reflexivity].
Qed.

Lemma outerLoop_exit (cycles fuel : nat) (s s' : State) (code : Z) :
  innerLoop fuel (resetCycle s) = Exited code s' ->
  outerLoop (S cycles) fuel s = Exited code s'.
Proof. intros H. simpl. now rewrite H. Qed.

(** C8: when the frame source yields an empty frame the iteration reports
    "Camera disconnected!" on the error stream and returns 1 from [main];
    the run ends there whatever bound is left: the frame counted is the
    last one read, the clock and the keyboard are not consulted, and the
    centroids, the timestamp, the recorder and the writer are as they
    were. *)
Theorem empty_frame_is_fatal (s : State) (fuel : nat) :
  empty (camera world (reads s)) = true ->
  let s' := eprint "Camera disconnected!" (count_read s) in
  innerBody s = Return 1 s' /\
  innerLoop (S fuel) s = Exited 1 s' /\
  (forall k s0, innerLoop k s0 = Running s ->
                innerLoop (k + S fuel) s0 = Exited 1 s') /\
  reads s' = S (reads s) /\ ticks s' = ticks s /\ polls s' = polls s /\
  lastCentroids s' = lastCentroids s /\ lastSnapshot s' = lastSnapshot s /\
  isRecording s' = isRecording s /\ recordingFrames s' = recordingFrames s /\
  writer s' = writer s /\ cout s' = cout s /\
  cerr s' = cerr s ++ ["Camera disconnected!"%string].
Proof.
  intros He s'.
  assert (Hb : innerBody s = Return 1 s').
  { unfold innerBody. now rewrite He. }
  assert (Hl : innerLoop (S fuel) s = Exited 1 s').
  { simpl. now rewrite Hb. }
  split; [exact Hb|]. split; [exact Hl|]. split.
  - intros k s0 Hk. now rewrite innerLoop_app, Hk.
  - repeat split; reflexivity.
Qed.

(** With the camera unplugged from the start, [main] exits with status 1
    after a single read. *)
Lemma main_exits_on_first_empty_frame (cycles fuel : nat) :
  cameraOpens world = true ->
  empty (camera world 0) = true ->
  main (S cycles) (S fuel) =
  Exited 1 (eprint "Camera disconnected!" (count_read (resetCycle initial))).
Proof.
  intros Ho He. unfold main. rewrite Ho. cbn [negb].
  apply outerLoop_exit.
  assert (Hb : innerBody (resetCycle initial) =
               Return 1 (eprint "Camera disconnected!"
                           (count_read (resetCycle initial)))).
  { unfold innerBody.
    replace (empty (camera world (reads (resetCycle initial)))) with true
      by (symmetry; exact He).
    reflexivity. }
  cbn [innerLoop]. now rewrite Hb.
Qed.

(** The iteration in which motion is detected: the state the key poll of
    that iteration starts from. *)
Lemma trigger_iteration (s : State) :
  let frame := camera world (reads s) in
  empty frame = false ->
  attemptDue s (clock world (ticks s)) = true ->
  snd (colorLoop frame (length colorRanges) 0 s) = true ->
  exists s1,
    innerBody s = pollKey s1 /\
    isRecording s1 = true /\ writer s1 = mkWriter true [frame] /\
    recordingFrames s1 = 1 /\
    reads s1 = S (reads s) /\ polls s1 = polls s.
Proof.
  intros frame He Ha Hd.
  apply colorLoop_detects in Hd. destruct Hd as [t Ht].
  unfold innerBody. fold frame. rewrite He. unfold detect.
  change (attemptDue (count_tick (count_read s)) (clock world (ticks (count_read s))))
    with (attemptDue s (clock world (ticks s))).
  rewrite Ha, colorLoop_closed.
  change (lastCentroids (count_tick (count_read s))) with (lastCentroids s).
  rewrite Ht. cbn [negb].
  eexists. split; [reflexivity|]. repeat split; reflexivity.
Qed.

Lemma pollKey_continue (s : State) :
  keyboard world (polls s) <> 27 -> pollKey s = Next (count_poll s).
Proof.
  intros H. unfold pollKey. apply Z.eqb_neq in H. now rewrite H.
Qed.

Lemma pollKey_state (s : State) :
  file (writer (flowState (pollKey s))) = file (writer s) /\
  recordingFrames (flowState (pollKey s)) = recordingFrames s.
Proof.
  unfold pollKey. destruct (keyboard world (polls s) =? 27); cbn.
  - destruct (isOpened (writer s)); split; reflexivity.
  - split; reflexivity.
Qed.

(** C10: in the iteration that detects motion the frame just examined is
    written to the freshly opened writer and counted: after the iteration
    the file holds that one frame and the frame counter is 1, and unless
    Escape is pressed the loop goes on, recording. *)
Theorem detection_frame_is_recorded (s : State) :
  let frame := camera world (reads s) in
  empty frame = false ->
  attemptDue s (clock world (ticks s)) = true ->
  snd (colorLoop frame (length colorRanges) 0 s) = true ->
  let s' := flowState (innerBody s) in
  file (writer s') = [frame] /\ recordingFrames s' = 1 /\
  (keyboard world (polls s) <> 27 ->
   innerBody s = Next s' /\ isRecording s' = true /\
   isOpened (writer s') = true).
Proof.
  intros frame He Ha Hd s'.
  destruct (trigger_iteration s He Ha Hd)
    as (s1 & Hb & Hrec & Hw & Hn & Hreads & Hpolls).
  subst s'. rewrite Hb.
  destruct (pollKey_state s1) as [Hf Hc].
  rewrite Hf, Hc, Hw, Hn. split; [reflexivity|]. split; [reflexivity|].
  rewrite <- Hpolls. intros Hk. rewrite (pollKey_continue s1 Hk). cbn.
  rewrite Hrec, Hw. repeat split; reflexivity.
Qed.

(** While recording nothing is examined. *)
Lemma detect_recording (frame : Mat3) (now : Z) (s : State) :
  isRecording s = true -> detect frame now s = s.
Proof. intros Hr. unfold detect, attemptDue. now rewrite Hr. Qed.

(** While recording, an iteration that does not reach the cap appends the
    frame and goes on. *)
Lemma recording_step (s : State) :
  isRecording s = true -> isOpened (writer s) = true ->
  empty (camera world (reads s)) = false ->
  recordingFrames s + 1 < maxRecordingFrames ->
  keyboard world (polls s) <> 27 ->
  exists s',
    innerBody s = Next s' /\
    isRecording s' = true /\ isOpened (writer s') = true /\
    file (writer s') = file (writer s) ++ [camera world (reads s)] /\
    recordingFrames s' = recordingFrames s + 1 /\
    reads s' = S (reads s) /\ polls s' = S (polls s) /\
    lastCentroids s' = lastCentroids s.
Proof.
  intros Hr Ho He Hn Hk.
  unfold innerBody. rewrite He.
  rewrite detect_recording by exact Hr.
  set (s1 := count_tick (count_read s)).
  unfold record. change (isRecording s1) with (isRecording s). rewrite Hr.
  change (recordingFrames
            (set_recordingFrames
               (recordingFrames
                  (set_writer
                     (VideoWriter_write (writer s1) (camera world (reads s)))
                     s1) + 1)
               (set_writer
                  (VideoWriter_write (writer s1) (camera world (reads s)))
                  s1)))
    with (recordingFrames s + 1).
  apply Z.leb_gt in Hn. rewrite Hn.
  rewrite pollKey_continue by exact Hk.
  eexists. split; [reflexivity|].
  cbn [isRecording writer recordingFrames reads polls lastCentroids
       count_poll set_recordingFrames set_writer count_tick count_read s1].
  unfold VideoWriter_write. rewrite Ho.
  repeat split; try reflexivity; assumption.
Qed.

Lemma recording_continues (m : nat) (s : State) :
  isRecording s = true -> isOpened (writer s) = true ->
  recordingFrames s + Z.of_nat m < maxRecordingFrames ->
  (forall k, (k < m)%nat -> empty (camera world (reads s + k)) = false) ->
  (forall k, (k < m)%nat -> keyboard world (polls s + k) <> 27) ->
  exists s',
    innerLoop m s = Running s' /\
    isRecording s' = true /\ isOpened (writer s') = true /\
    file (writer s') = file (writer s) ++ map (camera world) (seq (reads s) m) /\
    recordingFrames s' = recordingFrames s + Z.of_nat m /\
    reads s' = (reads s + m)%nat /\ polls s' = (polls s + m)%nat /\
    lastCentroids s' = lastCentroids s.
Proof.
  revert s. induction m as [|m IH]; intros s Hr Ho Hn He Hk.
  - exists s. simpl. rewrite app_nil_r, Z.add_0_r, !Nat.add_0_r.
    repeat split; try reflexivity; assumption.
  - destruct (recording_step s Hr Ho) as (s1 & Hb & Hr1 & Ho1 & Hf1 & Hn1 & Hd1 & Hp1 & Hc1).
    + specialize (He 0%nat ltac:(lia)). now rewrite Nat.add_0_r in He.
    + lia.
    + specialize (Hk 0%nat ltac:(lia)). now rewrite Nat.add_0_r in Hk.
    + destruct (IH s1 Hr1 Ho1) as (s' & Hl & Hr' & Ho' & Hf' & Hn' & Hd' & Hp' & Hc').
      * lia.
      * intros k Hlt. rewrite Hd1.
        replace (S (reads s) + k)%nat with (reads s + S k)%nat by lia.
        apply He. lia.
      * intros k Hlt. rewrite Hp1.
        replace (S (polls s) + k)%nat with (polls s + S k)%nat by lia.
        apply Hk. lia.
      * exists s'. simpl. rewrite Hb.
        split; [exact Hl|]. split; [exact Hr'|]. split; [exact Ho'|].
        split; [rewrite Hf', Hf1, Hd1, <- app_assoc; reflexivity|].
        split; [lia|]. split; [lia|]. split; [lia|]. congruence.
Qed.

(** While recording, the iteration that reaches the cap appends the frame,
    closes the writer and leaves the loop. *)
Lemma recording_final (s : State) :
  isRecording s = true -> isOpened (writer s) = true ->
  empty (camera world (reads s)) = false ->
  maxRecordingFrames <= recordingFrames s + 1 ->
  exists s',
    innerBody s = Break s' /\
    isRecording s' = false /\ isOpened (writer s') = false /\
    file (writer s') = file (writer s) ++ [camera world (reads s)] /\
    reads s' = S (reads s) /\ polls s' = polls s /\
    cout s' = cout s ++ ["Stopped recording after one clip."%string].
Proof.
  intros Hr Ho He Hn.
  unfold innerBody. rewrite He.
  rewrite detect_recording by exact Hr.
  set (s1 := count_tick (count_read s)).
  unfold record. change (isRecording s1) with (isRecording s). rewrite Hr.
  change (recordingFrames
            (set_recordingFrames
               (recordingFrames
                  (set_writer
                     (VideoWriter_write (writer s1) (camera world (reads s)))
                     s1) + 1)
               (set_writer
                  (VideoWriter_write (writer s1) (camera world (reads s)))
                  s1)))
    with (recordingFrames s + 1).
  apply Z.leb_le in Hn. rewrite Hn.
  eexists. split; [reflexivity|].
  cbn [isRecording writer recordingFrames reads polls cout print
       set_isRecording set_recordingFrames set_writer count_tick count_read
       s1 isOpened file VideoWriter_release].
  unfold VideoWriter_write. rewrite Ho.
  repeat split; reflexivity.
Qed.

(** C4: a session started by a detection writes exactly
    [maxRecordingFrames] = round(fps x duration) = 450 frames, the
    detection frame and the 449 that follow it, then releases the writer,
    turns recording off and leaves the inner loop; before that many frames
    the session is still open.  The camera is assumed to deliver the frames
    and the operator not to press Escape meanwhile. *)
Theorem session_frame_bound (s : State) :
  let frame := camera world (reads s) in
  let N := Z.to_nat maxRecordingFrames in
  attemptDue s (clock world (ticks s)) = true ->
  snd (colorLoop frame (length colorRanges) 0 s) = true ->
  (forall k, (k < N)%nat -> empty (camera world (reads s + k)) = false) ->
  (forall k, (k < N - 1)%nat -> keyboard world (polls s + k) <> 27) ->
  N = 450%nat /\
  (exists s',
     innerLoop N s = Left s' /\
     file (writer s') = map (camera world) (seq (reads s) N) /\
     isOpened (writer s') = false /\ isRecording s' = false /\
     reads s' = (reads s + N)%nat) /\
  (forall m, (0 < m < N)%nat ->
     exists s'',
       innerLoop m s = Running s'' /\
       isRecording s'' = true /\ isOpened (writer s'') = true /\
       file (writer s'') = map (camera world) (seq (reads s) m)).
Proof.
  intros frame N Ha Hd He Hk.
  assert (HN : N = 450%nat) by reflexivity.
  assert (Hmax : maxRecordingFrames = 450) by reflexivity.
  destruct (trigger_iteration s) as (s1 & Hb & Hr1 & Hw1 & Hn1 & Hd1 & Hp1);
    [specialize (He 0%nat ltac:(lia)); now rewrite Nat.add_0_r in He
    |exact Ha|exact Hd|].
  rewrite pollKey_continue in Hb
    by (rewrite Hp1; specialize (Hk 0%nat ltac:(lia));
        now rewrite Nat.add_0_r in Hk).
  set (s2 := count_poll s1) in *.
  assert (Hr2 : isRecording s2 = true) by exact Hr1.
  assert (Ho2 : isOpened (writer s2) = true)
    by (change (writer s2) with (writer s1); now rewrite Hw1).
  assert (Hf2 : file (writer s2) = [frame])
    by (change (writer s2) with (writer s1); now rewrite Hw1).
  assert (Hn2 : recordingFrames s2 = 1) by exact Hn1.
  assert (Hd2 : reads s2 = S (reads s)) by exact Hd1.
  assert (Hp2 : polls s2 = S (polls s)) by (cbn; now rewrite Hp1).
  assert (Hrun : forall m, (m < N - 1)%nat ->
            exists s',
              innerLoop (S m) s = Running s' /\
              isRecording s' = true /\ isOpened (writer s') = true /\
              file (writer s') = map (camera world) (seq (reads s) (S m)) /\
              recordingFrames s' = Z.of_nat (S m) /\
              reads s' = (reads s + S m)%nat).
  { intros m Hm.
    destruct (recording_continues m s2 Hr2 Ho2)
      as (s' & Hl & Hr' & Ho' & Hf' & Hn' & Hd' & Hp' & _).
    - lia.
    - intros k Hlt. rewrite Hd2.
      replace (S (reads s) + k)%nat with (reads s + S k)%nat by lia.
      apply He. lia.
    - intros k Hlt. rewrite Hp2.
      replace (S (polls s) + k)%nat with (polls s + S k)%nat by lia.
      apply Hk. lia.
    - exists s'. cbn [innerLoop]. rewrite Hb.
      split; [exact Hl|]. split; [exact Hr'|]. split; [exact Ho'|].
      split; [rewrite Hf', Hf2, Hd2; reflexivity|]. split; lia. }
  split; [exact HN|]. split.
  - destruct (Hrun (N - 2)%nat ltac:(lia))
      as (s' & Hl & Hr' & Ho' & Hf' & Hn' & Hd').
    destruct (recording_final s' Hr' Ho')
      as (s3 & Hb3 & Hr3 & Ho3 & Hf3 & Hd3 & _).
    + rewrite Hd'. apply He. lia.
    + lia.
    + exists s3.
      replace N with (S (N - 2) + 1)%nat at 1 by lia.
      rewrite innerLoop_app, Hl. cbn [innerLoop]. rewrite Hb3.
      split; [reflexivity|].
      split.
      * transitivity (map (camera world) (seq (reads s) (S (S (N - 2))))).
        -- rewrite (seq_S (S (N - 2))), map_app, Hf3, Hf', Hd'. reflexivity.
        -- reflexivity.
      * split; [exact Ho3|]. split; [exact Hr3|]. lia.
  - intros m Hm. destruct m as [|m]; [lia|].
    destruct (Hrun m ltac:(lia)) as (s' & Hl & Hr' & Ho' & Hf' & _).
    exists s'. repeat split; assumption.
Qed.


(** ** The session invariant *)

Lemma pollKey_cases (s : State) :
  pollKey s = Next (count_poll s) \/ exists s', pollKey s = Return 0 s'.
Proof.
  unfold pollKey. destruct (keyboard world (polls s) =? 27); eauto.
Qed.

(** Split on the answer of the key poll the goal waits for; the branch
    that returns from [main] has nothing left to show. *)
Ltac poll_cases :=
  match goal with
  | |- context [pollKey ?x] =>
      destruct (pollKey_cases x) as [->|[? ->]]; [|exact I]
  end.

Lemma cycleInv_reset (s : State) : cycleInv (resetCycle s).
Proof. left. split; reflexivity. Qed.

Lemma innerBody_inv (s : State) :
  cycleInv s ->
  match innerBody s with
  | Next s' => cycleInv s'
  | Break s' =>
      isRecording s' = false /\ isOpened (writer s') = false /\
      Z.of_nat (length (file (writer s'))) = maxRecordingFrames
  | Return _ _ => True
  end.
Proof.
  intros Hinv. unfold innerBody.
  destruct (empty (camera world (reads s))); [exact I|].
  set (frame := camera world (reads s)).
  set (now := clock world (ticks (count_read s))).
  set (s1 := count_tick (count_read s)).
  destruct Hinv as [[Hr Ho]|(Hr & Ho & Hlen & Hlt)].
  - (* idle *)
    unfold detect, attemptDue.
    change (isRecording s1) with (isRecording s). rewrite Hr. cbn [negb andb].
    destruct (quietPeriod <=? now - lastSnapshot s1).
    + rewrite colorLoop_closed.
      destruct (firstMoved frame (lastCentroids s1) (length colorRanges) 0)
        as [j|]; cbn [negb].
      * unfold record. cbn.
        poll_cases.
        right. cbn. repeat split; reflexivity.
      * unfold record. cbn. rewrite Hr.
        poll_cases.
        left. cbn. split; assumption.
    + unfold record. change (isRecording s1) with (isRecording s). rewrite Hr.
      poll_cases.
      left. cbn. split; assumption.
  - (* recording *)
    unfold detect, attemptDue.
    change (isRecording s1) with (isRecording s). rewrite Hr. cbn [negb andb].
    unfold record. change (isRecording s1) with (isRecording s). rewrite Hr.
    cbn. unfold VideoWriter_write. rewrite Ho. cbn.
    destruct (Z.leb_spec maxRecordingFrames (recordingFrames s + 1)).
    + cbn. rewrite length_app. cbn. repeat split; try reflexivity. lia.
    + poll_cases.
      right. cbn. rewrite length_app. cbn.
      repeat split; try reflexivity; try assumption; lia.
Qed.

(** Whenever the inner loop of a cycle ends by [break], the clip holds
    exactly [maxRecordingFrames] frames, the writer is released and
    nothing is being recorded. *)
Lemma clip_is_full_when_loop_leaves (fuel : nat) (s s' : State) :
  cycleInv s ->
  innerLoop fuel s = Left s' ->
  isRecording s' = false /\ isOpened (writer s') = false /\
  Z.of_nat (length (file (writer s'))) = maxRecordingFrames.
Proof.
  revert s. induction fuel as [|fuel IH]; intros s Hinv H; simpl in H;
    [discriminate|].
  pose proof (innerBody_inv s Hinv) as Hb.
  destruct (innerBody s) as [s1|s1|c s1].
  - exact (IH s1 Hb H).
  - now injection H as <-.
  - discriminate.
Qed.

(** While the inner loop is running the file never holds more frames than
    the counter, and the counter stays below the cap. *)
Lemma session_stays_below_cap (fuel : nat) (s s' : State) :
  cycleInv s -> innerLoop fuel s = Running s' -> cycleInv s'.
Proof.
  revert s. induction fuel as [|fuel IH]; intros s Hinv H; simpl in H.
  - now injection H as <-.
  - pose proof (innerBody_inv s Hinv) as Hb.
    destruct (innerBody s) as [s1|s1|c s1]; [|discriminate|discriminate].
    exact (IH s1 Hb H).
Qed.

(** A cycle that ends has recorded one full clip. *)
Lemma cycle_records_full_clip (fuel : nat) (s s' : State) :
  innerLoop fuel (resetCycle s) = Left s' ->
  isRecording s' = false /\ isOpened (writer s') = false /\
  length (file (writer s')) = 450%nat.
Proof.
  intros H.
  destruct (clip_is_full_when_loop_leaves fuel _ s' (cycleInv_reset s) H)
    as (Hr & Ho & Hl).
  rewrite maxRecordingFrames_eq in Hl. repeat split; [exact Hr|exact Ho|lia].
Qed.

(** ** The recording helper *)

Lemma feed_idle (frames : list Mat3) (maxFrames : Z) (s : State) :
  isRecording s = false -> feed frames maxFrames s = s.
Proof.
  intros H. induction frames as [|f rest IH]; [reflexivity|].
  unfold feed in *. simpl. unfold handleRecording at 2. now rewrite H.
Qed.

Lemma wrap_int_id (x : Z) : INT_MIN <= x <= INT_MAX -> wrap_int x = x.
Proof.
  unfold INT_MIN, INT_MAX, wrap_int. intros H.
  rewrite Z.mod_small; lia.
Qed.

(** What the helper does to a recording state whose counter can be
    incremented without overflow. *)
Lemma handleRecording_recording (frame : Mat3) (maxFrames : Z) (s : State) :
  isRecording s = true ->
  INT_MIN <= recordingFrames s < INT_MAX ->
  handleRecording frame maxFrames s =
  if maxFrames <=? recordingFrames s + 1 then
    print "Stopped recording."
      (set_recordingFrames 0
        (set_isRecording false
          (set_writer
             (VideoWriter_release (VideoWriter_write (writer s) frame)) s)))
  else
    set_recordingFrames (recordingFrames s + 1)
      (set_writer (VideoWriter_write (writer s) frame) s).
Proof.
  intros Hr Hb. unfold handleRecording. rewrite Hr.
  cbn [recordingFrames set_recordingFrames set_writer writer].
  rewrite wrap_int_id by (unfold INT_MIN, INT_MAX in *; lia).
  destruct (maxFrames <=? recordingFrames s + 1); reflexivity.
Qed.

(** At [INT_MAX] the increment wraps to [INT_MIN]: the counter is then
    below any cap and the session goes on. *)
Lemma handleRecording_counter_wraps (frame : Mat3) (maxFrames : Z) (s : State) :
  isRecording s = true -> recordingFrames s = INT_MAX ->
  INT_MIN < maxFrames ->
  let s' := handleRecording frame maxFrames s in
  isRecording s' = true /\ recordingFrames s' = INT_MIN.
Proof.
  intros Hr Hn Hm s'. subst s'. unfold handleRecording. rewrite Hr.
  cbn [recordingFrames set_recordingFrames set_writer writer].
  rewrite Hn. change (wrap_int (INT_MAX + 1)) with INT_MIN.
  apply Z.leb_gt in Hm. rewrite Hm. split; [exact Hr|reflexivity].
Qed.

(** X1: a session whose counter and cap are [int]s, the counter below
    [INT_MAX], fed frame by frame through the helper, appends frames until
    its counter reaches [maxFrames], at least one frame in any case (the
    frame is written before the counter is compared), and then is closed
    with the counter back at zero; frames offered after that are
    dropped. *)
Theorem handleRecording_caps_session
  (frames : list Mat3) (maxFrames : Z) (s : State) :
  isRecording s = true -> isOpened (writer s) = true ->
  INT_MIN <= recordingFrames s < INT_MAX ->
  INT_MIN <= maxFrames <= INT_MAX ->
  let n := Z.to_nat (Z.max 1 (maxFrames - recordingFrames s)) in
  let s' := feed frames maxFrames s in
  file (writer s') = file (writer s) ++ firstn n frames /\
  ((n <= length frames)%nat ->
   isRecording s' = false /\ isOpened (writer s') = false /\
   recordingFrames s' = 0) /\
  ((length frames < n)%nat ->
   isRecording s' = true /\ isOpened (writer s') = true /\
   recordingFrames s' = recordingFrames s + Z.of_nat (length frames)).
Proof.
  revert s. induction frames as [|f rest IH]; intros s Hr Ho Hb Hmax n s'.
  - subst s'. cbn [feed fold_left]. rewrite firstn_nil, app_nil_r.
    split; [reflexivity|]. split.
    + intros H. simpl in H. lia.
    + intros _. repeat split; try assumption. simpl. lia.
  - subst s'.
    change (feed (f :: rest) maxFrames s)
      with (feed rest maxFrames (handleRecording f maxFrames s)).
    rewrite handleRecording_recording by assumption.
    destruct (Z.leb_spec maxFrames (recordingFrames s + 1)) as [Hle|Hgt].
    + rewrite feed_idle by reflexivity.
      assert (Hn : n = 1%nat) by (subst n; lia). clearbody n. subst n.
      cbn. unfold VideoWriter_write. rewrite Ho. cbn.
      split; [reflexivity|]. split; [intros _; repeat split|intros H; lia].
    + set (s1 := set_recordingFrames (recordingFrames s + 1)
                   (set_writer (VideoWriter_write (writer s) f) s)).
      assert (Hr1 : isRecording s1 = true) by exact Hr.
      assert (Ho1 : isOpened (writer s1) = true)
        by (cbn; unfold VideoWriter_write; now rewrite Ho).
      assert (Hf1 : file (writer s1) = file (writer s) ++ [f])
        by (cbn; unfold VideoWriter_write; now rewrite Ho).
      assert (Hn1 : recordingFrames s1 = recordingFrames s + 1) by reflexivity.
      assert (Hb1 : INT_MIN <= recordingFrames s1 < INT_MAX)
        by (rewrite Hn1; unfold INT_MIN, INT_MAX in *; lia).
      destruct (IH s1 Hr1 Ho1 Hb1 Hmax) as (Hfile & Hfull & Hpart).
      rewrite Hn1 in Hfile, Hfull, Hpart.
      assert (Hn : n = S (Z.to_nat (Z.max 1 (maxFrames - (recordingFrames s + 1)))))
        by (subst n; lia).
      clearbody n. subst n. cbn [firstn length]. split.
      * rewrite Hfile, Hf1, <- app_assoc. reflexivity.
      * split.
        -- intros H. apply Hfull. lia.
        -- intros H. destruct Hpart as (A & B & C); [lia|].
           repeat split; try assumption. lia.
Qed.

(** X2: on one frame and a counter below [INT_MAX] the helper, given the
    cap of [main], and the inline recording step of [main] leave the same
    writer and the same recording flag; they differ in the counter only on
    the frame that reaches the cap, where the helper resets it to zero and
    [main] leaves it at the cap and breaks out of the loop. *)
Theorem handleRecording_agrees_with_main (frame : Mat3) (s : State) :
  keyboard world (polls s) <> 27 ->
  INT_MIN <= recordingFrames s < INT_MAX ->
  let h := handleRecording frame maxRecordingFrames s in
  let r := flowState (record frame s) in
  writer h = writer r /\ isRecording h = isRecording r /\
  lastCentroids h = lastCentroids r /\ lastSnapshot h = lastSnapshot r /\
  (if isRecording s && (maxRecordingFrames <=? recordingFrames s + 1)
   then recordingFrames h = 0 /\
        recordingFrames r = recordingFrames s + 1 /\
        record frame s = Break r
   else recordingFrames h = recordingFrames r /\ record frame s = Next r).
Proof.
  intros Hk Hb h r. subst h r. unfold record.
  destruct (isRecording s) eqn:Hr; cbn [andb].
  - rewrite handleRecording_recording by assumption.
    change (recordingFrames
              (set_recordingFrames
                 (recordingFrames
                    (set_writer (VideoWriter_write (writer s) frame) s) + 1)
                 (set_writer (VideoWriter_write (writer s) frame) s)))
      with (recordingFrames s + 1).
    destruct (maxRecordingFrames <=? recordingFrames s + 1) eqn:Hc.
    + cbn. repeat split; reflexivity.
    + rewrite pollKey_continue by exact Hk. cbn. repeat split; reflexivity.
  - unfold handleRecording. rewrite Hr.
    rewrite pollKey_continue by exact Hk. cbn. repeat split; reflexivity.
Qed.

(** ** What one iteration touches *)

Lemma detect_cases (frame : Mat3) (now : Z) (s : State) :
  detect frame now s = s \/
  (isRecording s = false /\
   exists L, length L = length (lastCentroids s) /\
     (detect frame now s = set_lastSnapshot now (set_lastCentroids L s) \/
      detect frame now s = startRecording (set_lastCentroids L s))).
Proof.
  unfold detect. destruct (attemptDue s now) eqn:Ha; [|now left].
  right. unfold attemptDue in Ha. apply andb_true_iff in Ha.
  destruct Ha as [Hr _]. apply negb_true_iff in Hr. split; [exact Hr|].
  rewrite colorLoop_closed.
  destruct (firstMoved frame (lastCentroids s) (length colorRanges) 0);
    eexists; (split; [apply length_refreshed|]); [right|left]; reflexivity.
Qed.

Lemma moved_same (c : Point) (frame : Mat3) (k : nat) :
  sighting frame k = Some c -> moved c frame k = false.
Proof.
  intros H. unfold moved. rewrite H. apply andb_false_iff. right.
  unfold norm_gt, normSq, Point_sub, motionThreshold. cbn.
  apply Z.ltb_ge. lia.
Qed.

Lemma moved_sentinel (frame : Mat3) (k : nat) : moved noPoint frame k = false.
Proof. unfold moved. now destruct (sighting frame k). Qed.

Lemma lookup_total_out (cents : list Point) (k : nat) :
  (length cents <= k)%nat -> cents !!! k = noPoint.
Proof.
  intros H. rewrite list_lookup_total_alt.
  now rewrite (proj2 (lookup_ge_None cents k) H).
Qed.

Lemma innerBody_nonempty (s : State) :
  empty (camera world (reads s)) = false ->
  innerBody s =
  record (camera world (reads s))
    (detect (camera world (reads s)) (clock world (ticks s))
       (count_tick (count_read s))).
Proof. intros H. unfold innerBody. now rewrite H. Qed.

Lemma record_idle (frame : Mat3) (s : State) :
  isRecording s = false -> record frame s = pollKey s.
Proof. intros H. unfold record. now rewrite H. Qed.

(** An attempt in which no entry moves. *)
Lemma detect_no_motion (frame : Mat3) (now : Z) (s : State) :
  attemptDue s now = true ->
  (forall k, moved (lastCentroids s !!! k) frame k = false) ->
  detect frame now s =
  set_lastSnapshot now
    (set_lastCentroids
       (refreshed frame (lastCentroids s) 0 (length colorRanges)) s).
Proof.
  intros Ha Hm. unfold detect. rewrite Ha, colorLoop_closed.
  assert (firstMoved frame (lastCentroids s) (length colorRanges) 0 = None)
    as -> by (apply firstMoved_None; intros k _; apply Hm).
  reflexivity.
Qed.

Lemma detect_not_due (frame : Mat3) (now : Z) (s : State) :
  attemptDue s now = false -> detect frame now s = s.
Proof. intros Ha. unfold detect. now rewrite Ha. Qed.

Lemma pollKey_keeps (s : State) :
  let s' := flowState (pollKey s) in
  lastCentroids s' = lastCentroids s /\ lastSnapshot s' = lastSnapshot s /\
  isRecording s' = isRecording s /\ recordingFrames s' = recordingFrames s /\
  file (writer s') = file (writer s) /\
  reads s' = reads s /\ ticks s' = ticks s /\ polls s' = S (polls s) /\
  cerr s' = cerr s.
Proof.
  unfold pollKey. destruct (keyboard world (polls s) =? 27); cbn.
  - destruct (isOpened (writer s)); repeat split; reflexivity.
  - repeat split; reflexivity.
Qed.

Lemma record_keeps (frame : Mat3) (s : State) :
  let s' := flowState (record frame s) in
  lastCentroids s' = lastCentroids s /\ lastSnapshot s' = lastSnapshot s /\
  reads s' = reads s /\ ticks s' = ticks s /\ cerr s' = cerr s.
Proof.
  unfold record. destruct (isRecording s).
  - destruct (maxRecordingFrames <=? _).
    + cbn. repeat split; reflexivity.
    + match goal with |- context [pollKey ?x] =>
        destruct (pollKey_keeps x) as (A & B & _ & _ & _ & C & D & _ & E) end.
      cbn zeta. rewrite A, B, C, D, E. repeat split; reflexivity.
  - destruct (pollKey_keeps s) as (A & B & _ & _ & _ & C & D & _ & E).
    cbn zeta. rewrite A, B, C, D, E. repeat split; reflexivity.
Qed.

Lemma innerBody_length (s : State) :
  length (lastCentroids (flowState (innerBody s))) = length (lastCentroids s).
Proof.
  unfold innerBody. destruct (empty _); [reflexivity|].
  match goal with |- context [record ?f ?x] =>
    destruct (record_keeps f x) as (-> & _) end.
  match goal with |- context [detect ?f ?t ?x] =>
    destruct (detect_cases f t x) as [->|(_ & L & HL & [->| ->])] end;
    cbn; [reflexivity|exact HL|exact HL].
Qed.

Lemma innerLoop_length (fuel : nat) (s : State) :
  length (lastCentroids (runState (innerLoop fuel s))) =
  length (lastCentroids s).
Proof.
  revert s. induction fuel as [|fuel IH]; intros s; [reflexivity|].
  cbn [innerLoop]. pose proof (innerBody_length s) as H.
  destruct (innerBody s) as [s1|s1|c s1]; cbn [runState flowState] in *;
    [rewrite IH| |]; assumption.
Qed.

(** X3: wherever a run of [main] stands, [lastCentroids] has exactly as
    many elements as [colorRanges], so every [lastCentroids[i]] of the loop
    over the entries is within bounds. *)
Theorem lastCentroids_size_invariant (cycles fuel : nat) :
  length (lastCentroids (runState (main cycles fuel))) = length colorRanges.
Proof.
  unfold main. destruct (cameraOpens world); cbn [negb]; [|apply length_replicate].
  assert (H : forall s, length (lastCentroids s) = length colorRanges ->
            length (lastCentroids (runState (outerLoop cycles fuel s))) =
            length colorRanges).
  { induction cycles as [|cycles IH]; intros s Hs; [exact Hs|].
    cbn [outerLoop].
    pose proof (innerLoop_length fuel (resetCycle s)) as Hl.
    assert (Hr : length (lastCentroids (resetCycle s)) = length colorRanges).
    { unfold resetCycle. cbn [lastCentroids set_writer set_recordingFrames
        set_isRecording set_lastSnapshot set_lastCentroids count_tick
        count_wait print].
      now rewrite length_replicate. }
    rewrite Hr in Hl.
    destruct (innerLoop fuel (resetCycle s)) as [s1|s1|c s1];
      cbn [runState] in *; [exact Hl|now apply IH|exact Hl]. }
  apply H. apply length_replicate.
Qed.

(** X4: while a session is being recorded an iteration changes neither a
    tracked centroid nor the quiet-period timestamp, whatever the frame
    shows and whatever the clock says. *)
Theorem recording_freezes_detection (s : State) :
  isRecording s = true ->
  lastCentroids (flowState (innerBody s)) = lastCentroids s /\
  lastSnapshot (flowState (innerBody s)) = lastSnapshot s.
Proof.
  intros Hr. unfold innerBody. destruct (empty _); [split; reflexivity|].
  match goal with |- context [record ?f ?x] =>
    destruct (record_keeps f x) as (-> & -> & _) end.
  rewrite detect_recording by exact Hr. split; reflexivity.
Qed.




(** X6: when Escape is the answer of the key poll of an iteration that
    does not complete a clip, [main] returns 0 from that iteration with the
    capture released and the writer closed; if a session was being
    recorded, the frame of the iteration has been written first. *)
Theorem escape_quits_cleanly (s : State) :
  let frame := camera world (reads s) in
  empty frame = false ->
  keyboard world (polls s) = 27 ->
  (isRecording s = true -> recordingFrames s + 1 < maxRecordingFrames) ->
  exists s',
    innerBody s = Return 0 s' /\
    capOpened s' = false /\ isOpened (writer s') = false /\
    (isRecording s = true -> isOpened (writer s) = true ->
     file (writer s') = file (writer s) ++ [frame]).
Proof.
  intros frame He Hk Hcap.
  assert (Hp : forall x, polls x = polls s ->
            exists s', pollKey x = Return 0 s' /\
              capOpened s' = false /\ isOpened (writer s') = false /\
              file (writer s') = file (writer x)).
  { intros x Hx. unfold pollKey. rewrite Hx, Hk. cbn.
    destruct (isOpened (writer x)) eqn:Ho; eexists;
      (split; [reflexivity|]); cbn; repeat split; assumption. }
  unfold innerBody. fold frame. rewrite He.
  set (now := clock world _). set (s1 := count_tick (count_read s)).
  destruct (isRecording s) eqn:Hr.
  - assert (Hd : detect frame now s1 = s1)
      by (apply detect_recording; exact Hr).
    rewrite Hd. unfold record.
    change (isRecording s1) with (isRecording s). rewrite Hr.
    change (recordingFrames
              (set_recordingFrames
                 (recordingFrames
                    (set_writer (VideoWriter_write (writer s1) frame) s1) + 1)
                 (set_writer (VideoWriter_write (writer s1) frame) s1)))
      with (recordingFrames s + 1).
    specialize (Hcap eq_refl). apply Z.leb_gt in Hcap. rewrite Hcap.
    match goal with |- context [pollKey ?x] =>
      destruct (Hp x eq_refl) as (s' & -> & Hc & Ho & Hf) end.
    exists s'. split; [reflexivity|]. split; [exact Hc|]. split; [exact Ho|].
    intros _ Hopen. rewrite Hf. cbn. unfold VideoWriter_write.
    change (writer s1) with (writer s). now rewrite Hopen.
  - destruct (detect_cases frame now s1) as [->|(_ & L & _ & [->| ->])];
      unfold record; cbn -[pollKey maxRecordingFrames Z.leb];
      try (change (isRecording s1) with (isRecording s); rewrite Hr).
    + destruct (Hp s1 eq_refl) as (s' & -> & Hc & Ho & _).
      exists s'. repeat split; try assumption. discriminate.
    + match goal with |- context [pollKey ?x] =>
        destruct (Hp x eq_refl) as (s' & -> & Hc & Ho & _) end.
      exists s'. repeat split; try assumption. discriminate.
    + change (maxRecordingFrames <=? 0 + 1) with false. cbv iota.
      match goal with |- context [pollKey ?x] =>
        destruct (Hp x eq_refl) as (s' & -> & Hc & Ho & _) end.
      exists s'. repeat split; try assumption. discriminate.
Qed.

(** ** What a clip holds *)

Lemma clip_content_step (s : State) :
  cycleInv s ->
  (isRecording s = true ->
   (Z.to_nat (recordingFrames s) <= reads s)%nat /\
   file (writer s) =
   map (camera world)
       (seq (reads s - Z.to_nat (recordingFrames s))
            (Z.to_nat (recordingFrames s)))) ->
  let content s' :=
    (Z.to_nat (recordingFrames s') <= reads s')%nat /\
    file (writer s') =
    map (camera world)
        (seq (reads s' - Z.to_nat (recordingFrames s'))
             (Z.to_nat (recordingFrames s'))) in
  match innerBody s with
  | Next s' => isRecording s' = true -> content s'
  | Break s' => content s' /\ recordingFrames s' = maxRecordingFrames
  | Return _ _ => True
  end.
Proof.
  intros Hinv Hclip content. unfold innerBody.
  destruct (empty (camera world (reads s))); [exact I|].
  set (frame := camera world (reads s)).
  set (now := clock world (ticks (count_read s))).
  set (s1 := count_tick (count_read s)).
  destruct Hinv as [[Hr Ho]|(Hr & Ho & Hlen & Hlt)].
  - unfold detect, attemptDue.
    change (isRecording s1) with (isRecording s). rewrite Hr. cbn [negb andb].
    destruct (quietPeriod <=? now - lastSnapshot s1).
    + rewrite colorLoop_closed.
      destruct (firstMoved frame (lastCentroids s1) (length colorRanges) 0)
        as [j|]; cbn [negb].
      * unfold record. cbn.
        poll_cases. intros _. subst content. cbn.
        split; [lia|].
        change (Z.to_nat (0 + 1)) with 1%nat.
        replace (S (reads s) - 1)%nat with (reads s) by lia. reflexivity.
      * unfold record. cbn. rewrite Hr. poll_cases. cbn. congruence.
    + unfold record. change (isRecording s1) with (isRecording s). rewrite Hr.
      poll_cases. cbn. congruence.
  - destruct (Hclip Hr) as [Hle Hfile].
    unfold detect, attemptDue.
    change (isRecording s1) with (isRecording s). rewrite Hr. cbn [negb andb].
    unfold record. change (isRecording s1) with (isRecording s). rewrite Hr.
    cbn. unfold VideoWriter_write. rewrite Ho. cbn.
    assert (Hn : Z.to_nat (recordingFrames s + 1)
                 = S (Z.to_nat (recordingFrames s))) by lia.
    assert (Hseq : file (writer s) ++ [frame] =
              map (camera world)
                (seq (S (reads s) - Z.to_nat (recordingFrames s + 1))
                     (Z.to_nat (recordingFrames s + 1)))).
    { rewrite Hn, seq_S, map_app, Hfile. cbn [map].
      replace (S (reads s) - S (Z.to_nat (recordingFrames s)))%nat
        with (reads s - Z.to_nat (recordingFrames s))%nat by lia.
      replace (reads s - Z.to_nat (recordingFrames s)
               + Z.to_nat (recordingFrames s))%nat with (reads s) by lia.
      reflexivity. }
    destruct (Z.leb_spec maxRecordingFrames (recordingFrames s + 1)).
    + subst content. cbn. split; [split; [lia|exact Hseq]|lia].
    + poll_cases. intros _. subst content. cbn. split; [lia|exact Hseq].
Qed.

Lemma innerBody_clipInv (s : State) :
  clipInv s ->
  match innerBody s with
  | Next s' => clipInv s'
  | Break s' =>
      (Z.to_nat maxRecordingFrames <= reads s')%nat /\
      file (writer s') =
      map (camera world)
          (seq (reads s' - Z.to_nat maxRecordingFrames)
               (Z.to_nat maxRecordingFrames))
  | Return _ _ => True
  end.
Proof.
  intros [Hinv Hclip].
  pose proof (innerBody_inv s Hinv) as H1.
  pose proof (clip_content_step s Hinv Hclip) as H2. cbv zeta in H2.
  destruct (innerBody s) as [s1|s1|c s1]; [split; assumption| |exact I].
  destruct H2 as [[Hle Hf] Hn]. rewrite Hn in Hle, Hf. split; assumption.
Qed.

(** X7: the clip a cycle leaves behind is made of the last
    [maxRecordingFrames] frames the camera delivered, in the order of
    arrival and with none left out or doubled. *)
Theorem clip_is_the_last_frames_read (fuel : nat) (s s' : State) :
  innerLoop fuel (resetCycle s) = Left s' ->
  let N := Z.to_nat maxRecordingFrames in
  (N <= reads s')%nat /\
  file (writer s') = map (camera world) (seq (reads s' - N) N).
Proof.
  assert (H : forall s0, clipInv s0 -> innerLoop fuel s0 = Left s' ->
            (Z.to_nat maxRecordingFrames <= reads s')%nat /\
            file (writer s') =
            map (camera world)
                (seq (reads s' - Z.to_nat maxRecordingFrames)
                     (Z.to_nat maxRecordingFrames))).
  { induction fuel as [|fuel IH]; intros s0 Hinv Hl; cbn [innerLoop] in Hl;
      [discriminate|].
    pose proof (innerBody_clipInv s0 Hinv) as Hb.
    destruct (innerBody s0) as [s1|s1|c s1];
      [exact (IH s1 Hb Hl)|now injection Hl as <-|discriminate]. }
  intros Hl N. apply (H (resetCycle s)); [|exact Hl].
  split; [apply cycleInv_reset|]. intros Hr. discriminate Hr.
Qed.

(** ** The quiet period *)

Lemma quiet_step (s : State) :
  isRecording s = false ->
  empty (camera world (reads s)) = false ->
  clock world (ticks s) - lastSnapshot s < quietPeriod ->
  keyboard world (polls s) <> 27 ->
  innerBody s = Next (count_poll (count_tick (count_read s))).
Proof.
  intros Hr He Hq Hk. unfold innerBody. rewrite He.
  set (frame := camera world (reads s)).
  set (s1 := count_tick (count_read s)).
  assert (Hd : detect frame (clock world (ticks (count_read s))) s1 = s1).
  { unfold detect, attemptDue.
    change (lastSnapshot s1) with (lastSnapshot s).
    change (ticks (count_read s)) with (ticks s).
    apply Z.leb_gt in Hq. now rewrite Hq, andb_false_r. }
  rewrite Hd. unfold record.
  change (isRecording s1) with (isRecording s). rewrite Hr.
  now apply pollKey_continue.
Qed.

(** X8: frames that arrive within the quiet period of the last no-motion
    attempt are read and dropped: as long as fewer than [quietPeriod]
    seconds have elapsed, the iterations change no tracked centroid, not
    the timestamp, and write nothing. *)
Theorem quiet_period_skips_frames (m : nat) (s : State) :
  isRecording s = false ->
  (forall k, (k < m)%nat -> empty (camera world (reads s + k)) = false) ->
  (forall k, (k < m)%nat ->
             clock world (ticks s + k) - lastSnapshot s < quietPeriod) ->
  (forall k, (k < m)%nat -> keyboard world (polls s + k) <> 27) ->
  exists s',
    innerLoop m s = Running s' /\
    lastCentroids s' = lastCentroids s /\ lastSnapshot s' = lastSnapshot s /\
    isRecording s' = false /\ writer s' = writer s /\ cout s' = cout s /\
    reads s' = (reads s + m)%nat.
Proof.
  revert s. induction m as [|m IH]; intros s Hr He Hq Hk.
  - exists s. cbn [innerLoop]. repeat split; try assumption. lia.
  - assert (Hb : innerBody s = Next (count_poll (count_tick (count_read s)))).
    { apply quiet_step; [exact Hr| | |].
      - specialize (He 0%nat ltac:(lia)). now rewrite Nat.add_0_r in He.
      - specialize (Hq 0%nat ltac:(lia)). now rewrite Nat.add_0_r in Hq.
      - specialize (Hk 0%nat ltac:(lia)). now rewrite Nat.add_0_r in Hk. }
    destruct (IH (count_poll (count_tick (count_read s))))
      as (s' & Hl & H1 & H2 & H3 & H4 & H5 & H6).
    + exact Hr.
    + intros k Hlt. cbn [reads count_poll count_tick count_read lastSnapshot].
      replace (S (reads s) + k)%nat with (reads s + S k)%nat by lia.
      apply He. lia.
    + intros k Hlt. cbn [ticks count_poll count_tick count_read lastSnapshot].
      replace (S (ticks s) + k)%nat with (ticks s + S k)%nat by lia.
      apply Hq. lia.
    + intros k Hlt. cbn [polls count_poll count_tick count_read lastSnapshot].
      replace (S (polls s) + k)%nat with (polls s + S k)%nat by lia.
      apply Hk. lia.
    + exists s'. cbn [innerLoop]. rewrite Hb. split; [exact Hl|].
      cbn [lastCentroids lastSnapshot writer cout reads count_poll count_tick
           count_read] in H1, H2, H4, H5, H6.
      repeat split; try assumption. lia.
Qed.

(** X9: the first frame of a cycle is always examined, provided the clock
    has not gone backwards since the reset: the iteration stamps the
    attempt with the current time, records nothing, and stores for every
    entry the centroid it sights in that frame, or the sentinel when it
    sights none. *)
Theorem first_frame_sets_baseline (s : State) :
  let frame := camera world (reads s) in
  let now := clock world (S (ticks s)) in
  empty frame = false ->
  clock world (ticks s) <= now ->
  let s1 := flowState (innerBody (resetCycle s)) in
  lastSnapshot s1 = now /\ isRecording s1 = false /\
  forall i, (i < length colorRanges)%nat ->
            (i < length (lastCentroids s))%nat ->
            lastCentroids s1 !! i =
            Some (if 0 <? m00 (colorMoments frame i)
                  then centroid (colorMoments frame i) else noPoint).
Proof.
  intros frame now He Hc s1. subst s1.
  set (s0 := count_tick (count_read (resetCycle s))).
  assert (Hb : innerBody (resetCycle s) = record frame (detect frame now s0))
    by (apply innerBody_nonempty; exact He).
  assert (Ha : attemptDue s0 now = true).
  { unfold attemptDue.
    change (isRecording s0) with false.
    change (lastSnapshot s0) with (clock world (ticks s) - quietPeriod).
    cbn [negb andb]. apply Z.leb_le. lia. }
  assert (Hd : detect frame now s0 =
               set_lastSnapshot now
                 (set_lastCentroids
                    (refreshed frame (lastCentroids s0) 0
                       (length colorRanges)) s0)).
  { apply detect_no_motion; [exact Ha|].
    intros k. change (lastCentroids s0) with (lastCentroids (resetCycle s)).
    rewrite (resetCycle_centroids s k). apply moved_sentinel. }
  rewrite Hb, Hd, record_idle by reflexivity.
  match goal with |- context [pollKey ?x] =>
    destruct (pollKey_keeps x) as (-> & -> & -> & _) end.
  split; [reflexivity|]. split; [reflexivity|].
  intros i Hi Hlen.
  change (refreshed frame (lastCentroids s0) 0 (length colorRanges) !! i =
          Some (if 0 <? m00 (colorMoments frame i)
                then centroid (colorMoments frame i) else noPoint)).
  rewrite lookup_refreshed.
  change (lastCentroids s0)
    with (replicate (length (lastCentroids s)) noPoint).
  rewrite lookup_replicate_2 by exact Hlen. cbn [fmap option_fmap option_map].
  destruct (Nat.leb_spec 0 i); [|lia].
  destruct (Nat.ltb_spec i (length colorRanges)); [|lia].
  cbn [andb]. unfold sighting.
  now destruct (0 <? m00 (colorMoments frame i)).
Qed.

(** ** Scenes that do not move *)

Lemma settled_no_move (frame : Mat3) (cents : list Point) (k : nat) :
  settled frame cents -> moved (cents !!! k) frame k = false.
Proof.
  intros H. destruct (H k) as [->|Hs];
    [apply moved_sentinel|now apply moved_same].
Qed.

Lemma settled_refreshed (frame : Mat3) (cents : list Point) (lo hi : nat) :
  settled frame cents -> settled frame (refreshed frame cents lo hi).
Proof.
  intros H k. rewrite lookup_total_refreshed.
  destruct (_ && _); [|apply H].
  destruct (sighting frame k) as [c|] eqn:E; cbn; [now right|].
  destruct (H k) as [Hk|Hk]; [now left|congruence].
Qed.

Lemma moved_after_refresh
  (frame : Mat3) (cents : list Point) (lo hi k : nat) :
  (lo <= k < hi)%nat ->
  moved (refreshed frame cents lo hi !!! k) frame k = false.
Proof.
  intros Hk. rewrite lookup_total_refreshed.
  destruct (Nat.leb_spec lo k); [|lia].
  destruct (Nat.ltb_spec k hi); [|lia]. cbn [andb].
  destruct (Nat.ltb_spec k (length cents)).
  - destruct (sighting frame k) as [c|] eqn:E; cbn;
      [now apply moved_same|].
    unfold moved. now rewrite E.
  - rewrite lookup_total_out by assumption. apply moved_sentinel.
Qed.

Lemma refreshed_idem (frame : Mat3) (cents : list Point) (lo hi : nat) :
  refreshed frame (refreshed frame cents lo hi) lo hi =
  refreshed frame cents lo hi.
Proof.
  apply list_eq. intros k. rewrite !lookup_refreshed.
  destruct (cents !! k) as [old|]; [|reflexivity]. cbn.
  destruct (_ && _); [|reflexivity]. now destruct (sighting frame k).
Qed.

(** X10: examining the same frame again right after an attempt that found
    no motion finds no motion either and changes nothing: the stored
    centroids are already the ones the frame shows. *)
Theorem reexamining_a_frame_changes_nothing (frame : Mat3) (s : State) :
  snd (colorLoop frame (length colorRanges) 0 s) = false ->
  let s1 := fst (colorLoop frame (length colorRanges) 0 s) in
  colorLoop frame (length colorRanges) 0 s1 = (s1, false).
Proof.
  intros Hd s1. subst s1. rewrite (colorLoop_closed frame _ 0 s) in *.
  destruct (firstMoved frame (lastCentroids s) (length colorRanges) 0);
    [discriminate|]. cbn [fst].
  rewrite colorLoop_closed. cbn [lastCentroids set_lastCentroids].
  assert (firstMoved frame
            (refreshed frame (lastCentroids s) 0 (0 + length colorRanges))
            (length colorRanges) 0 = None) as ->.
  { apply firstMoved_None. intros k Hk. now apply moved_after_refresh. }
  now rewrite refreshed_idem, set_lastCentroids_twice.
Qed.

(** X11: an attempt that finds no motion refreshes every entry that has a
    blob in the frame with the centroid of that blob, and leaves the
    others as they were. *)
Theorem no_motion_attempt_refreshes (frame : Mat3) (s : State) (i : nat) :
  snd (colorLoop frame (length colorRanges) 0 s) = false ->
  (i < length colorRanges)%nat ->
  (i < length (lastCentroids s))%nat ->
  lastCentroids (fst (colorLoop frame (length colorRanges) 0 s)) !!! i =
  if 0 <? m00 (colorMoments frame i)
  then centroid (colorMoments frame i) else lastCentroids s !!! i.
Proof.
  intros Hd Hi Hlen. rewrite colorLoop_closed in *.
  destruct (firstMoved frame (lastCentroids s) (length colorRanges) 0);
    [discriminate|]. cbn [fst lastCentroids set_lastCentroids].
  rewrite lookup_total_refreshed.
  destruct (Nat.leb_spec 0 i); [|lia].
  destruct (Nat.ltb_spec i (0 + length colorRanges)); [|lia].
  destruct (Nat.ltb_spec i (length (lastCentroids s))); [|lia].
  cbn [andb]. unfold sighting.
  now destruct (0 <? m00 (colorMoments frame i)).
Qed.

(** X12: a camera that shows the same picture all the time never starts a
    recording: however long the cycle runs, nothing is recorded and the
    writer is never opened. *)
Theorem static_scene_never_records (frame : Mat3) (fuel : nat) (s : State) :
  (forall n, camera world n = frame) ->
  empty frame = false ->
  (forall n, keyboard world n <> 27) ->
  exists s',
    innerLoop fuel (resetCycle s) = Running s' /\
    isRecording s' = false /\ writer s' = VideoWriter_new /\
    settled frame (lastCentroids s').
Proof.
  intros Hcam He Hkey.
  assert (Hstep : forall s0,
            isRecording s0 = false -> writer s0 = VideoWriter_new ->
            settled frame (lastCentroids s0) ->
            exists s1, innerBody s0 = Next s1 /\
              isRecording s1 = false /\ writer s1 = VideoWriter_new /\
              settled frame (lastCentroids s1)).
  { intros s0 Hr Hw Hs.
    rewrite innerBody_nonempty by (rewrite Hcam; exact He).
    rewrite Hcam.
    set (now := clock world (ticks s0)).
    set (s1 := count_tick (count_read s0)).
    destruct (attemptDue s1 now) eqn:Ha.
    - rewrite detect_no_motion;
        [|exact Ha|intros k; now apply settled_no_move].
      rewrite record_idle by exact Hr.
      rewrite pollKey_continue by apply Hkey.
      eexists. split; [reflexivity|].
      split; [exact Hr|]. split; [exact Hw|].
      apply (settled_refreshed frame (lastCentroids s0)). exact Hs.
    - rewrite detect_not_due by exact Ha.
      rewrite record_idle by exact Hr.
      rewrite pollKey_continue by apply Hkey.
      eexists. split; [reflexivity|].
      split; [exact Hr|]. split; [exact Hw|]. exact Hs. }
  assert (H : forall s0,
            isRecording s0 = false -> writer s0 = VideoWriter_new ->
            settled frame (lastCentroids s0) ->
            exists s', innerLoop fuel s0 = Running s' /\
              isRecording s' = false /\ writer s' = VideoWriter_new /\
              settled frame (lastCentroids s')).
  { induction fuel as [|fuel IH]; intros s0 Hr Hw Hs.
    - exists s0. repeat split; assumption.
    - destruct (Hstep s0 Hr Hw Hs) as (s1 & Hb & Hr1 & Hw1 & Hs1).
      destruct (IH s1 Hr1 Hw1 Hs1) as (s' & Hl & Hrest).
      exists s'. cbn [innerLoop]. rewrite Hb. split; assumption. }
  apply H; [reflexivity|reflexivity|].
  intros i. left. apply resetCycle_centroids.
Qed.

(** ** The masks of the entries *)

Lemma pixelAt_colorMask (hsv : Mat3) (i y x : nat) :
  pixelAt (colorMask hsv i) y x =
  (fun p => if entryTest i p then 255 else 0) <$> pixelAt hsv y x.
Proof.
  unfold colorMask, entryTest. destruct (i =? 1)%nat.
  - rewrite bitwise_or_inRange. apply pixelAt_map.
  - unfold inRange. apply pixelAt_map.
Qed.

Lemma entryTest_exclusive (i j : nat) (p : Scalar) :
  (i < length colorRanges)%nat -> (j < length colorRanges)%nat ->
  i <> j -> i <> 2%nat -> j <> 2%nat ->
  entryTest i p = true -> entryTest j p = false.
Proof.
  intros Hi Hj Hij Hi2 Hj2. destruct p as [[h sat] v].
  destruct i as [|[|[|[|[|[|i]]]]]]; try (simpl in Hi; lia);
    destruct j as [|[|[|[|[|[|j]]]]]]; try (simpl in Hj; lia);
    try congruence;
    unfold entryTest, inRangePx; cbn;
    rewrite ?orb_true_iff, ?orb_false_iff, ?andb_true_iff, ?andb_false_iff,
      ?Z.leb_le, ?Z.leb_gt; lia.
Qed.

(** X13: the colour classes exclude one another pixel by pixel: a pixel
    set in the mask of one of blue, red, green, yellow and white is clear
    in the masks of the others.  The mask of entry 2, the second red
    sub-range taken alone, lies within the red mask of entry 1. *)
Theorem colour_masks_are_exclusive (hsv : Mat3) (i j y x : nat) :
  (i < length colorRanges)%nat -> (j < length colorRanges)%nat ->
  i <> j -> i <> 2%nat -> j <> 2%nat ->
  (pixelAt (colorMask hsv i) y x = Some 255 ->
   pixelAt (colorMask hsv j) y x = Some 0) /\
  (pixelAt (colorMask hsv 2) y x = Some 255 ->
   pixelAt (colorMask hsv 1) y x = Some 255).
Proof.
  intros Hi Hj Hij Hi2 Hj2. rewrite !pixelAt_colorMask.
  destruct (pixelAt hsv y x) as [p|]; cbn [fmap option_fmap option_map];
    [|split; discriminate].
  split.
  - destruct (entryTest i p) eqn:E; [|discriminate]. intros _.
    now rewrite (entryTest_exclusive i j p).
  - unfold entryTest. cbn [Nat.eqb].
    set (b1 := inRangePx (lower (colorRanges !!! 1%nat))
                         (upper (colorRanges !!! 1%nat)) p).
    set (b2 := inRangePx (lower (colorRanges !!! 2%nat))
                         (upper (colorRanges !!! 2%nat)) p).
    destruct b2; [now rewrite orb_true_r|discriminate].
Qed.

(** ** Centroids lie in the picture *)

Lemma rowMoments_bounds (row : list Z) (x : Z) :
  0 <= x ->
  let n := fst (rowMoments true x row) in
  let sx := snd (rowMoments true x row) in
  0 <= n /\ x * n <= sx /\ sx <= (x + Z.of_nat (length row) - 1) * n.
Proof.
  revert x. induction row as [|v rest IH]; intros x Hx; [simpl; lia|].
  specialize (IH (x + 1) ltac:(lia)). cbn zeta in IH.
  cbn [rowMoments length].
  destruct (rowMoments true (x + 1) rest) as [n sx]. cbn [fst snd] in *.
  pose proof (weight_binary_nonneg v) as Hw.
  assert (weight true v <= 1) by (unfold weight; destruct (v =? 0); lia).
  cbv zeta. split; [lia|]. split; nia.
Qed.

Lemma momentsFrom_bounds (m : Mat1) (W : nat) (y : Z) :
  Forall (fun row => (length row <= W)%nat) m ->
  0 <= y ->
  let M := momentsFrom true y m in
  0 <= m00 M /\
  0 <= m10 M /\ m10 M <= (Z.of_nat W - 1) * m00 M /\
  y * m00 M <= m01 M /\ m01 M <= (y + Z.of_nat (length m) - 1) * m00 M.
Proof.
  intros HW. revert y. induction HW as [|row rest Hrow _ IH]; intros y Hy;
    [simpl; lia|].
  specialize (IH (y + 1) ltac:(lia)). cbv zeta in IH.
  cbn [momentsFrom length].
  pose proof (rowMoments_bounds row 0 ltac:(lia)) as Hr. cbv zeta in Hr.
  destruct (rowMoments true 0 row) as [n sx]. cbn [fst snd] in Hr.
  set (M := momentsFrom true (y + 1) rest) in *.
  cbv zeta. cbn [m00 m10 m01].
  destruct Hr as (Hn & Hlo & Hhi). destruct IH as (I0 & I1 & I2 & I3 & I4).
  assert (sx <= (Z.of_nat W - 1) * n) by nia.
  repeat split; nia.
Qed.

(** X14: the centroid of a mask that is not empty is a pixel position
    inside the mask: its column is below the width and its row below the
    height, and neither is negative. *)
Theorem centroid_within_mask (m : Mat1) (W : nat) :
  Forall (fun row => (length row <= W)%nat) m ->
  0 < m00 (moments m true) ->
  let c := centroid (moments m true) in
  0 <= px c < Z.of_nat W /\ 0 <= py c < Z.of_nat (length m).
Proof.
  intros HW Hm c. subst c. unfold centroid, moments in *. cbn [px py].
  destruct (momentsFrom_bounds m W 0 HW ltac:(lia)) as (H0 & H1 & H2 & H3 & H4).
  set (M := momentsFrom true 0 m) in *.
  split; split.
  - now apply Z.quot_pos.
  - apply Z.le_succ_l. rewrite <- Z.add_1_r.
    assert (m10 M ÷ m00 M <= Z.of_nat W - 1); [|lia].
    apply Z.quot_le_upper_bound; [exact Hm|lia].
  - now apply Z.quot_pos.
  - assert (m01 M ÷ m00 M <= Z.of_nat (length m) - 1); [|lia].
    apply Z.quot_le_upper_bound; [exact Hm|lia].
Qed.

(** ** Counting *)

Lemma detect_counts (frame : Mat3) (now : Z) (s : State) :
  reads (detect frame now s) = reads s /\
  ticks (detect frame now s) = ticks s /\
  polls (detect frame now s) = polls s.
Proof.
  destruct (detect_cases frame now s) as [->|(_ & L & _ & [->| ->])];
    repeat split; reflexivity.
Qed.

Lemma record_next_polls (frame : Mat3) (s s' : State) :
  record frame s = Next s' -> polls s' = S (polls s).
Proof.
  assert (Hp : forall x, pollKey x = Next s' -> polls s' = S (polls x)).
  { intros x. unfold pollKey. destruct (_ =? 27); [discriminate|].
    now intros [= <-]. }
  unfold record. destruct (isRecording s); [|apply Hp].
  destruct (maxRecordingFrames <=? _); [discriminate|].
  intros H. now apply Hp in H.
Qed.

Lemma innerBody_next_counts (s s' : State) :
  innerBody s = Next s' ->
  reads s' = S (reads s) /\ ticks s' = S (ticks s) /\
  polls s' = S (polls s).
Proof.
  unfold innerBody. destruct (empty _); [discriminate|].
  set (f := camera world _). set (t := clock world _).
  set (s1 := count_tick (count_read s)). intros H.
  destruct (record_keeps f (detect f t s1)) as (_ & _ & Hr & Ht & _).
  pose proof (record_next_polls _ _ _ H) as Hp.
  rewrite H in Hr, Ht. cbn [flowState] in Hr, Ht.
  destruct (detect_counts f t s1) as (Dr & Dt & Dp).
  rewrite Hr, Ht, Hp, Dr, Dt, Dp. repeat split; reflexivity.
Qed.

(** X15: every iteration the inner loop completes takes exactly one frame
    from the camera, one reading of the clock and one key poll. *)
Theorem one_frame_per_iteration (fuel : nat) (s s' : State) :
  innerLoop fuel s = Running s' ->
  reads s' = (reads s + fuel)%nat /\ ticks s' = (ticks s + fuel)%nat /\
  polls s' = (polls s + fuel)%nat.
Proof.
  revert s. induction fuel as [|fuel IH]; intros s H; cbn [innerLoop] in H.
  - injection H as <-. repeat split; lia.
  - destruct (innerBody s) as [s1|s1|c s1] eqn:Hb;
      [|discriminate|discriminate].
    destruct (innerBody_next_counts s s1 Hb) as (A & B & C).
    destruct (IH s1 H) as (A' & B' & C'). repeat split; lia.
Qed.

(** ** One clip per cycle *)

Lemma starts_print (msg : string) (s : State) :
  starts (print msg s) =
  (starts s +
   if string_dec msg "Started recording due to motion." then 1 else 0)%nat.
Proof.
  unfold starts. cbn. rewrite count_occ_app. cbn.
  destruct (string_dec msg _); reflexivity.
Qed.

Lemma innerBody_starts (base : nat) (s : State) :
  (isRecording s = false /\ starts s = base) \/
  (isRecording s = true /\ starts s = S base) ->
  match innerBody s with
  | Next s' =>
      (isRecording s' = false /\ starts s' = base) \/
      (isRecording s' = true /\ starts s' = S base)
  | Break s' => starts s' = S base
  | Return _ s' => (starts s' <= S base)%nat
  end.
Proof.
  intros Hinv.
  assert (Hp : forall x,
            (isRecording x = false /\ starts x = base) \/
            (isRecording x = true /\ starts x = S base) ->
            match pollKey x with
            | Next s' =>
                (isRecording s' = false /\ starts s' = base) \/
                (isRecording s' = true /\ starts s' = S base)
            | Break s' => starts s' = S base
            | Return _ s' => (starts s' <= S base)%nat
            end).
  { intros x Hx. unfold pollKey. destruct (_ =? 27).
    - cbv zeta.
      match goal with |- context [if ?c then _ else _] => destruct c end;
        match goal with
        | |- (starts ?y <= _)%nat => change (starts y) with (starts x)
        end; lia.
    - exact Hx. }
  destruct (empty (camera world (reads s))) eqn:He.
  - unfold innerBody. rewrite He.
    change (starts (eprint "Camera disconnected!" (count_read s)))
      with (starts s). lia.
  - rewrite innerBody_nonempty by exact He.
    set (f := camera world (reads s)). set (t := clock world (ticks s)).
    set (s1 := count_tick (count_read s)).
    destruct Hinv as [[Hr Hs]|[Hr Hs]].
    + destruct (detect_cases f t s1) as [->|(_ & L & _ & [->| ->])].
      * rewrite record_idle by exact Hr. apply Hp. left. split; assumption.
      * rewrite record_idle by exact Hr. apply Hp. left. split; assumption.
      * unfold record.
        change (isRecording (startRecording (set_lastCentroids L s1)))
          with true. cbv iota.
        match goal with |- context [maxRecordingFrames <=? ?x] =>
          change (maxRecordingFrames <=? x) with false end.
        cbv iota. apply Hp. right. split; [reflexivity|].
        unfold starts in *.
        match goal with |- context [cout ?x] =>
          change (cout x)
            with (cout s ++ ["Started recording due to motion."%string]) end.
        rewrite count_occ_app, Hs. cbn [count_occ].
        destruct (string_dec _ _); [lia|congruence].
    + rewrite detect_recording by exact Hr.
      unfold record. change (isRecording s1) with (isRecording s). rewrite Hr.
      destruct (maxRecordingFrames <=? _).
      * unfold starts in *.
        match goal with |- context [cout ?x] =>
          change (cout x)
            with (cout s ++ ["Stopped recording after one clip."%string]) end.
        rewrite count_occ_app, Hs. cbn [count_occ].
        destruct (string_dec _ _); [discriminate|]. lia.
      * apply Hp. right. split; [exact Hr|exact Hs].
Qed.

(** X16: a cycle starts at most one recording, and a cycle that ends has
    started exactly one: between two presses of Enter "Started recording
    due to motion." is printed once at most. *)
Theorem one_clip_per_cycle (fuel : nat) (s : State) :
  let r := innerLoop fuel (resetCycle s) in
  (starts (runState r) <= S (starts s))%nat /\
  match r with
  | Left s' => starts s' = S (starts s)
  | _ => True
  end.
Proof.
  assert (H : forall s0,
            (isRecording s0 = false /\ starts s0 = starts s) \/
            (isRecording s0 = true /\ starts s0 = S (starts s)) ->
            (starts (runState (innerLoop fuel s0)) <= S (starts s))%nat /\
            match innerLoop fuel s0 with
            | Left s' => starts s' = S (starts s)
            | _ => True
            end).
  { induction fuel as [|fuel IH]; intros s0 Hinv.
    - cbn [innerLoop runState]. split; [|exact I].
      destruct Hinv as [[_ ->]|[_ ->]]; lia.
    - cbn [innerLoop].
      pose proof (innerBody_starts (starts s) s0 Hinv) as Hb.
      destruct (innerBody s0) as [s1|s1|c s1].
      + exact (IH s1 Hb).
      + cbn [runState]. split; [lia|exact Hb].
      + cbn [runState]. split; [exact Hb|exact I]. }
  intros r. apply H. left. split; [reflexivity|].
  unfold starts. cbn. rewrite count_occ_app. cbn. lia.
Qed.

(** ** The noise filter *)

(** X17: with radii whose element size 2r+1 fits an [int],
    [applyMorphology] erodes with the elliptic element of size 2e+1 and
    then dilates the result with the elliptic element of size 2d+1; a
    radius that is not positive switches its step off, so with no positive
    radius the mask comes back as it was; and filtering with both radii is
    filtering with the erosion radius alone and then with the dilation
    radius alone. *)
Theorem applyMorphology_steps (src : Mat1) (e d : Z) :
  2 * e + 1 <= INT_MAX -> 2 * d + 1 <= INT_MAX ->
  let kernel r :=
    getStructuringElement MORPH_ELLIPSE (2 * r + 1, 2 * r + 1) in
  (0 < e -> 0 < d ->
   applyMorphology src e d = dilate (erode src (kernel e)) (kernel d)) /\
  (0 < e -> d <= 0 -> applyMorphology src e d = erode src (kernel e)) /\
  (e <= 0 -> 0 < d -> applyMorphology src e d = dilate src (kernel d)) /\
  (e <= 0 -> d <= 0 -> applyMorphology src e d = src) /\
  applyMorphology src e d = applyMorphology (applyMorphology src e 0) 0 d.
Proof.
  intros _ _ kernel. subst kernel. cbv beta.
  rewrite (Z.mul_comm 2 e), (Z.mul_comm 2 d).
  unfold applyMorphology. cbn [Z.ltb Z.compare].
  destruct (Z.ltb_spec 0 e), (Z.ltb_spec 0 d);
    repeat split; intros; try reflexivity; lia.
Qed.

(** X18: [applyMorphology] keeps the dimensions of the mask, given that
    erosion and dilation do, as those of OpenCV. *)
Theorem applyMorphology_keeps_dimensions (src : Mat1) (e d : Z) :
  (forall m k, map length (erode m k) = map length m) ->
  (forall m k, map length (dilate m k) = map length m) ->
  map length (applyMorphology src e d) = map length src.
Proof.
  intros He Hd. unfold applyMorphology.
  destruct (0 <? e), (0 <? d); rewrite ?Hd, ?He; reflexivity.
Qed.
End Detector.

(** ** The program on the reference instances *)

Local Abbreviation ref_colorMoments :=
  (colorMoments Ref.cvtColor_BGR2HSV Ref.getStructuringElement
     Ref.erode Ref.dilate).
Local Abbreviation ref_colorLoop :=
  (colorLoop Ref.cvtColor_BGR2HSV Ref.getStructuringElement
     Ref.erode Ref.dilate).
Local Abbreviation ref_colorLoop_logical :=
  (colorLoop_logical Ref.cvtColor_BGR2HSV Ref.getStructuringElement
     Ref.erode Ref.dilate).
Local Abbreviation ref_exceedsThreshold :=
  (exceedsThreshold Ref.cvtColor_BGR2HSV Ref.getStructuringElement
     Ref.erode Ref.dilate).
Local Abbreviation ref_refreshed :=
  (refreshed Ref.cvtColor_BGR2HSV Ref.getStructuringElement
     Ref.erode Ref.dilate).
Local Abbreviation ref_detect :=
  (detect Ref.cvtColor_BGR2HSV Ref.getStructuringElement
     Ref.erode Ref.dilate).
Local Abbreviation ref_innerBody :=
  (innerBody Ref.cvtColor_BGR2HSV Ref.getStructuringElement
     Ref.erode Ref.dilate).
Local Abbreviation ref_innerLoop :=
  (innerLoop Ref.cvtColor_BGR2HSV Ref.getStructuringElement
     Ref.erode Ref.dilate).
Local Abbreviation ref_main :=
  (main Ref.cvtColor_BGR2HSV Ref.getStructuringElement
     Ref.erode Ref.dilate).

(** The 5 x 5 elliptic element: the full square less the corners of its
    first and last rows. *)
Example ellipse5 :
  Ref.getStructuringElement MORPH_ELLIPSE (5, 5) =
  [[0; 0; 1; 0; 0]; [1; 1; 1; 1; 1]; [1; 1; 1; 1; 1]; [1; 1; 1; 1; 1];
   [0; 0; 1; 0; 0]].
Proof. reflexivity. Qed.

(** The sample colours fall in the ranges they are named after. *)
Example sample_colours :
  map Ref.bgr2hsvPx [Ref.blue; Ref.red1; Ref.red2; Ref.green] =
  [(120, 255, 255); (0, 255, 255); (170, 255, 255); (60, 255, 255)].
Proof. reflexivity. Qed.

(** [Ref.afterFirstFrame] is where [main] stands after one frame. *)
Example afterFirstFrame_reached :
  ref_main Ref.world 1 1 = Running Ref.afterFirstFrame.
Proof. vm_compute. reflexivity. Qed.

(** In [Ref.world] the first cycle records the 450 frames 1..450 and
    ends; one frame earlier it is still recording. *)
Example one_clip :
  let s451 := runState (ref_main Ref.world 1 451) in
  let s450 := runState (ref_main Ref.world 1 450) in
  (isRecording s451 = false /\ isOpened (writer s451) = false /\
   length (file (writer s451)) = 450%nat /\ reads s451 = 451%nat) /\
  (isRecording s450 = true /\ isOpened (writer s450) = true /\
   length (file (writer s450)) = 449%nat).
Proof. vm_compute. repeat split; reflexivity. Qed.

(** A displacement of exactly 30 pixels does not start a recording, one
    of 31 pixels does. *)
Example thirty_is_not_enough :
  snd (ref_colorLoop (Ref.blueAt 40) 6 0 Ref.tracking) = false /\
  snd (ref_colorLoop (Ref.blueAt 41) 6 0 Ref.tracking) = true.
Proof. vm_compute. split; reflexivity. Qed.

(** ** Instances of the theorems *)

Lemma threshold_is_strict_witness :
  let frame := Ref.blueAt 40 in
  let s := Ref.tracking in
  let d := norm (Point_sub (centroid (ref_colorMoments frame 0))
                           (lastCentroids s !!! 0%nat)) in
  (snd (ref_colorLoop frame 1 0 s) = true <-> (IZR motionThreshold < d)%R) /\
  (d = IZR motionThreshold -> snd (ref_colorLoop frame 1 0 s) = false) /\
  ((IZR motionThreshold < d)%R ->
   snd (ref_colorLoop frame (length colorRanges) 0 s) = true).
Proof.
  apply (threshold_is_strict Ref.cvtColor_BGR2HSV Ref.getStructuringElement
           Ref.erode Ref.dilate (Ref.blueAt 40) Ref.tracking 0).
  - simpl. lia.
  - vm_compute. reflexivity.
  - vm_compute. discriminate.
Defined.

Lemma empty_mask_keeps_centroid_witness :
  let frame := Ref.blueAt 10 in
  let s := Ref.tracking in
  attemptDue s 1020 = true /\
  snd (ref_colorLoop frame (length colorRanges) 0 s) = false /\
  lastSnapshot (ref_detect frame 1020 s) = 1020 /\
  lastCentroids s !! 3%nat = Some (mkPoint 20 3) /\
  m00 (ref_colorMoments frame 3) = 0 /\
  lastCentroids (ref_detect frame 1020 s) !! 3%nat = lastCentroids s !! 3%nat /\
  (forall j, lastCentroids s !!! j <> noPoint ->
             lastCentroids (ref_detect frame 1020 s) !!! j <> noPoint).
Proof.
  split; [vm_compute; reflexivity|].
  split; [vm_compute; reflexivity|].
  split; [vm_compute; reflexivity|].
  split; [reflexivity|].
  split; [vm_compute; reflexivity|].
  apply (empty_mask_keeps_centroid Ref.cvtColor_BGR2HSV
           Ref.getStructuringElement Ref.erode Ref.dilate
           (Ref.blueAt 10) 1020 Ref.tracking 3).
  vm_compute. reflexivity.
Defined.

Lemma priority_short_circuit_witness :
  let frame := Ref.bothMoved in
  let s := Ref.tracking in
  let r := ref_colorLoop frame (length colorRanges) 0 s in
  snd r = true /\
  isRecording (fst r) = true /\ recordingFrames (fst r) = 0 /\
  isOpened (writer (fst r)) = true /\ file (writer (fst r)) = [] /\
  lastCentroids (fst r) !! 3%nat = lastCentroids s !! 3%nat /\
  cout (fst r) = cout s ++ ["Started recording due to motion."%string] /\
  exists t,
    (t <= 0)%nat /\
    ref_exceedsThreshold frame (lastCentroids s) t /\
    (forall k, (k < t)%nat -> ~ ref_exceedsThreshold frame (lastCentroids s) k) /\
    fst r = startRecording
              (set_lastCentroids (ref_refreshed frame (lastCentroids s) 0 t) s) /\
    (forall k, (t <= k)%nat ->
               lastCentroids (fst r) !! k = lastCentroids s !! k).
Proof.
  apply (priority_short_circuit Ref.cvtColor_BGR2HSV Ref.getStructuringElement
           Ref.erode Ref.dilate Ref.bothMoved Ref.tracking 0 3).
  - lia.
  - simpl. lia.
  - apply moved_iff. vm_compute. reflexivity.
  - apply moved_iff. vm_compute. reflexivity.
Defined.

Lemma empty_frame_is_fatal_witness :
  let s := resetCycle Ref.unplugged initial in
  let s' := eprint "Camera disconnected!" (count_read s) in
  empty (camera Ref.unplugged (reads s)) = true /\
  ref_innerBody Ref.unplugged s = Return 1 s' /\
  ref_innerLoop Ref.unplugged 1 s = Exited 1 s' /\
  cerr s' = cerr s ++ ["Camera disconnected!"%string].
Proof.
  split; [reflexivity|].
  destruct (empty_frame_is_fatal Ref.cvtColor_BGR2HSV
              Ref.getStructuringElement Ref.erode Ref.dilate Ref.unplugged
              (resetCycle Ref.unplugged initial) 0)
    as (H1 & H2 & _ & _ & _ & _ & _ & _ & _ & _ & _ & _ & H3).
  - reflexivity.
  - split; [exact H1|]. split; [exact H2|exact H3].
Defined.

Lemma detection_frame_is_recorded_witness :
  let s := Ref.afterFirstFrame in
  let s' := flowState (ref_innerBody Ref.world s) in
  file (writer s') = [Ref.blueAt 60] /\ recordingFrames s' = 1.
Proof.
  destruct (detection_frame_is_recorded Ref.cvtColor_BGR2HSV
              Ref.getStructuringElement Ref.erode Ref.dilate Ref.world
              Ref.afterFirstFrame) as (H1 & H2 & _).
  - vm_compute. reflexivity.
  - vm_compute. reflexivity.
  - vm_compute. reflexivity.
  - split; [exact H1|exact H2].
Defined.

Lemma session_frame_bound_witness :
  let s := Ref.afterFirstFrame in
  exists s',
    ref_innerLoop Ref.world 450 s = Left s' /\
    file (writer s') = map (camera Ref.world) (seq 1 450) /\
    isOpened (writer s') = false /\ isRecording s' = false /\
    reads s' = 451%nat.
Proof.
  destruct (session_frame_bound Ref.cvtColor_BGR2HSV
              Ref.getStructuringElement Ref.erode Ref.dilate Ref.world
              Ref.afterFirstFrame) as (_ & H & _).
  - vm_compute. reflexivity.
  - vm_compute. reflexivity.
  - intros k _. unfold Ref.world, camera.
    destruct (_ =? 0)%nat; vm_compute; reflexivity.
  - intros k _. unfold Ref.world, keyboard. lia.
  - exact H.
Defined.



(** C1 fails on the code: entry 2, the second red sub-range, is visited
    again on its own, with the mask of that sub-range alone and a tracked
    centroid of its own.  With the two red squares of [Ref.redsApart] the
    first attempt stores (50, 3) for the red entry and (90, 3) for entry 2;
    in [Ref.redsClose] the centroid of the red entry has not moved, yet
    the loop declares motion, by entry 2, where the loop that takes the two
    sub-ranges as one entry declares none. *)
Theorem red_part2_evaluated_again :
  (forall hsv,
     colorMask hsv 2 = inRange hsv (160, 100, 50) (179, 255, 255)) /\
  let r1 := ref_colorLoop Ref.redsApart (length colorRanges) 0 initial in
  let r2 := ref_colorLoop Ref.redsClose (length colorRanges) 0 (fst r1) in
  let l1 := ref_colorLoop_logical Ref.redsApart (length colorRanges) 0
              initial in
  let l2 := ref_colorLoop_logical Ref.redsClose (length colorRanges) 0
              (fst l1) in
  snd r1 = false /\
  lastCentroids (fst r1) !! 1%nat = Some (mkPoint 50 3) /\
  lastCentroids (fst r1) !! 2%nat = Some (mkPoint 90 3) /\
  snd r2 = true /\ isRecording (fst r2) = true /\
  lastCentroids (fst l1) !! 1%nat = Some (mkPoint 50 3) /\
  lastCentroids (fst l1) !! 2%nat = Some noPoint /\
  snd l2 = false /\ isRecording (fst l2) = false.
Proof.
  split; [reflexivity|]. vm_compute. repeat split; reflexivity.
Qed.

(** ** Instances of the further theorems *)

Local Abbreviation ref_applyMorphology :=
  (applyMorphology Ref.getStructuringElement Ref.erode Ref.dilate).

Lemma handleRecording_caps_session_witness :
  let frames := [Ref.blueAt 10; Ref.blueAt 60; Ref.blueAt 10] in
  let s' := feed frames 2 Ref.sessionOpen in
  file (writer s') = [Ref.blueAt 10; Ref.blueAt 60] /\
  isRecording s' = false /\ isOpened (writer s') = false /\
  recordingFrames s' = 0.
Proof.
  destruct (handleRecording_caps_session
              [Ref.blueAt 10; Ref.blueAt 60; Ref.blueAt 10] 2 Ref.sessionOpen)
    as (Hf & Hfull & _).
  - reflexivity.
  - reflexivity.
  - vm_compute. split; [discriminate|reflexivity].
  - vm_compute. split; discriminate.
  - split; [exact Hf|]. apply Hfull. simpl. lia.
Defined.

Lemma handleRecording_agrees_with_main_witness :
  let s := Ref.sessionOpen in
  let frame := Ref.blueAt 10 in
  writer (handleRecording frame maxRecordingFrames s) =
  writer (flowState (record Ref.world frame s)).
Proof.
  destruct (handleRecording_agrees_with_main Ref.world (Ref.blueAt 10)
              Ref.sessionOpen) as (H & _).
  - simpl. lia.
  - vm_compute. split; [discriminate|reflexivity].
  - exact H.
Defined.

Lemma recording_freezes_detection_witness :
  let s := Ref.sessionOpen in
  lastCentroids (flowState (ref_innerBody Ref.world s)) = lastCentroids s /\
  lastSnapshot (flowState (ref_innerBody Ref.world s)) = lastSnapshot s.
Proof.
  apply (recording_freezes_detection Ref.cvtColor_BGR2HSV
           Ref.getStructuringElement Ref.erode Ref.dilate Ref.world
           Ref.sessionOpen).
  reflexivity.
Defined.


Lemma escape_quits_cleanly_witness :
  exists s',
    ref_innerBody Ref.impatient Ref.afterFirstFrame = Return 0 s' /\
    capOpened s' = false /\ isOpened (writer s') = false.
Proof.
  destruct (escape_quits_cleanly Ref.cvtColor_BGR2HSV
              Ref.getStructuringElement Ref.erode Ref.dilate Ref.impatient
              Ref.afterFirstFrame) as (s' & Hb & Hc & Ho & _).
  - vm_compute. reflexivity.
  - reflexivity.
  - discriminate.
  - exists s'. exact (conj Hb (conj Hc Ho)).
Defined.

Lemma clip_is_the_last_frames_read_witness :
  let s' := runState (ref_innerLoop Ref.world 451
                        (resetCycle Ref.world initial)) in
  (450 <= reads s')%nat /\
  file (writer s') = map (camera Ref.world) (seq (reads s' - 450) 450).
Proof.
  apply (clip_is_the_last_frames_read Ref.cvtColor_BGR2HSV
           Ref.getStructuringElement Ref.erode Ref.dilate Ref.world 451
           initial).
  vm_compute. reflexivity.
Defined.

Lemma quiet_period_skips_frames_witness :
  exists s',
    ref_innerLoop Ref.slow 3 Ref.afterFirstFrame = Running s' /\
    lastCentroids s' = lastCentroids Ref.afterFirstFrame /\
    lastSnapshot s' = 1010 /\ writer s' = VideoWriter_new /\
    reads s' = 4%nat.
Proof.
  destruct (quiet_period_skips_frames Ref.cvtColor_BGR2HSV
              Ref.getStructuringElement Ref.erode Ref.dilate Ref.slow 3
              Ref.afterFirstFrame) as (s' & Hl & H1 & H2 & _ & H4 & _ & H6).
  - reflexivity.
  - intros k _. unfold Ref.slow, Ref.world, camera.
    destruct (_ =? 0)%nat; vm_compute; reflexivity.
  - intros k Hk. unfold Ref.slow, Ref.afterFirstFrame, clock, ticks,
      lastSnapshot, quietPeriod. lia.
  - intros k _. unfold Ref.slow, Ref.world, keyboard. lia.
  - exists s'. exact (conj Hl (conj H1 (conj H2 (conj H4 H6)))).
Defined.

Lemma first_frame_sets_baseline_witness :
  let s1 := flowState (ref_innerBody Ref.world
                         (resetCycle Ref.world initial)) in
  lastSnapshot s1 = 1010 /\ isRecording s1 = false /\
  lastCentroids s1 !! 0%nat = Some (mkPoint 10 3).
Proof.
  destruct (first_frame_sets_baseline Ref.cvtColor_BGR2HSV
              Ref.getStructuringElement Ref.erode Ref.dilate Ref.world
              initial) as (H1 & H2 & H3).
  - vm_compute. reflexivity.
  - vm_compute. discriminate.
  - split; [exact H1|]. split; [exact H2|].
    rewrite H3 by (simpl; lia). vm_compute. reflexivity.
Defined.

Lemma reexamining_a_frame_changes_nothing_witness :
  let s1 := fst (ref_colorLoop (Ref.blueAt 10) (length colorRanges) 0
                   initial) in
  ref_colorLoop (Ref.blueAt 10) (length colorRanges) 0 s1 = (s1, false).
Proof.
  apply (reexamining_a_frame_changes_nothing Ref.cvtColor_BGR2HSV
           Ref.getStructuringElement Ref.erode Ref.dilate
           (Ref.blueAt 10) initial).
  vm_compute. reflexivity.
Defined.

Lemma no_motion_attempt_refreshes_witness :
  lastCentroids
    (fst (ref_colorLoop (Ref.blueAt 40) (length colorRanges) 0 Ref.tracking))
  !!! 0%nat =
  if 0 <? m00 (ref_colorMoments (Ref.blueAt 40) 0)
  then centroid (ref_colorMoments (Ref.blueAt 40) 0)
  else lastCentroids Ref.tracking !!! 0%nat.
Proof.
  apply (no_motion_attempt_refreshes Ref.cvtColor_BGR2HSV
           Ref.getStructuringElement Ref.erode Ref.dilate
           (Ref.blueAt 40) Ref.tracking 0).
  - vm_compute. reflexivity.
  - simpl. lia.
  - simpl. lia.
Defined.

Lemma static_scene_never_records_witness :
  exists s',
    ref_innerLoop Ref.still 100 (resetCycle Ref.still initial) = Running s' /\
    isRecording s' = false /\ writer s' = VideoWriter_new.
Proof.
  destruct (static_scene_never_records Ref.cvtColor_BGR2HSV
              Ref.getStructuringElement Ref.erode Ref.dilate Ref.still
              (Ref.blueAt 10) 100 initial) as (s' & Hl & Hr & Hw & _).
  - intros n. reflexivity.
  - vm_compute. reflexivity.
  - intros n. unfold Ref.still, Ref.world, keyboard. lia.
  - exists s'. exact (conj Hl (conj Hr Hw)).
Defined.

Lemma colour_masks_are_exclusive_witness :
  let hsv := Ref.cvtColor_BGR2HSV Ref.bothMoved in
  pixelAt (colorMask hsv 0) 3 60 = Some 255 /\
  pixelAt (colorMask hsv 3) 3 60 = Some 0.
Proof.
  assert (H : pixelAt (colorMask (Ref.cvtColor_BGR2HSV Ref.bothMoved) 0) 3 60
              = Some 255) by (vm_compute; reflexivity).
  split; [exact H|].
  destruct (colour_masks_are_exclusive
              (Ref.cvtColor_BGR2HSV Ref.bothMoved) 0 3 3 60) as [Hx _].
  - simpl. lia.
  - simpl. lia.
  - lia.
  - lia.
  - lia.
  - exact (Hx H).
Defined.

Lemma centroid_within_mask_witness :
  let m := [[0; 255; 0]; [255; 255; 0]] in
  let c := centroid (moments m true) in
  0 <= px c < 3 /\ 0 <= py c < 2.
Proof.
  apply (centroid_within_mask [[0; 255; 0]; [255; 255; 0]] 3).
  - repeat constructor.
  - reflexivity.
Defined.

Lemma one_frame_per_iteration_witness :
  let s' := runState (ref_innerLoop Ref.world 2
                        (resetCycle Ref.world initial)) in
  reads s' = 2%nat /\ ticks s' = 3%nat /\ polls s' = 2%nat.
Proof.
  apply (one_frame_per_iteration Ref.cvtColor_BGR2HSV
           Ref.getStructuringElement Ref.erode Ref.dilate Ref.world 2
           (resetCycle Ref.world initial)).
  vm_compute. reflexivity.
Defined.

Lemma applyMorphology_steps_witness :
  let m := colorMask (Ref.cvtColor_BGR2HSV (Ref.blueAt 10)) 0 in
  let kernel := Ref.getStructuringElement MORPH_ELLIPSE (5, 5) in
  ref_applyMorphology m 2 2 = Ref.dilate (Ref.erode m kernel) kernel.
Proof.
  destruct (applyMorphology_steps Ref.getStructuringElement Ref.erode
              Ref.dilate (colorMask (Ref.cvtColor_BGR2HSV (Ref.blueAt 10)) 0)
              2 2) as (H & _).
  - vm_compute. discriminate.
  - vm_compute. discriminate.
  - apply H; lia.
Defined.

Lemma imap_rows_dimensions (F : nat -> list Z -> list Z) (m : Mat1) :
  (forall y row, length (F y row) = length row) ->
  map length (imap F m) = map length m.
Proof.
  revert F. induction m as [|row rest IH]; intros F HF; [reflexivity|].
  cbn [imap map]. rewrite HF. f_equal. apply IH. intros y r. apply HF.
Qed.

Lemma Ref_morph_dimensions (op : Z -> Z -> Z) (init : Z) (m k : Mat1) :
  map length (Ref.morph op init m k) = map length m.
Proof.
  unfold Ref.morph. apply imap_rows_dimensions.
  intros y row. apply length_imap.
Qed.

Lemma applyMorphology_keeps_dimensions_witness :
  let m := colorMask (Ref.cvtColor_BGR2HSV (Ref.blueAt 10)) 0 in
  map length (ref_applyMorphology m erodeSize dilateSize) = map length m.
Proof.
  apply (applyMorphology_keeps_dimensions Ref.getStructuringElement
           Ref.erode Ref.dilate).
  - intros m k. apply Ref_morph_dimensions.
  - intros m k. apply Ref_morph_dimensions.
Defined.
